(** * Verification of the authentication views of the Airavata Django portal

    Source: [django_airavata/apps/auth/views.py].

    The views are request handlers.  They read the Django settings, the
    request, two database tables ([EmailVerification], [EmailTemplate]) and
    the session, and they call out to collaborators: the IAM admin client,
    the template engine, the mail backend, the authentication backends and
    the OAuth2 client.  The embedding is a state-and-exception monad over a
    [World]; every call to a collaborator is recorded in a trace, so that
    statements such as "enable is called exactly once" or "no email is
    sent" are statements about that trace. *)

From stdpp Require Import base option list gmap strings.

Set Default Proof Using "Type".

(** ** Python values the views handle *)

(** A [dict] with string keys and string values: the query dictionaries
    [request.GET] and [request.POST], a form's [cleaned_data], the session,
    a template [Context], one entry of
    [settings.AUTHENTICATION_OPTIONS['external']]. *)
Abbreviation Dict := (gmap string string).

(** Exception classes that the views raise, catch or let through.
    [DoesNotExist model] is [model.DoesNotExist]; Django derives each of
    them from [django.core.exceptions.ObjectDoesNotExist]. *)
Inductive ExnClass : Type :=
  | Exception
  | DoesNotExist (model : string)
  | MultipleObjectsReturned (model : string)
  | IntegrityError
  | KeyError
  | IndexError
  | AttributeError
  | OtherError (name : string).

(** A raised exception object: its class, [str(e)], and the value of its
    [message] attribute when the object has one.  Python 3 exceptions have
    no [message] attribute unless their class defines it. *)
Record Exn : Type := mkExn {
  exn_class : ExnClass;
  exn_str : string;
  exn_message : option string;
}.

#[global] Instance ExnClass_eq_dec : EqDecision ExnClass.
Proof. solve_decision. Defined.
#[global] Instance Exn_eq_dec : EqDecision Exn.
Proof. solve_decision. Defined.

(** [isinstance(e, ObjectDoesNotExist)] *)
Definition is_ObjectDoesNotExist (e : Exn) : bool :=
  match exn_class e with
  | DoesNotExist _ => true
  | _ => false
  end.

Definition Result (A : Type) : Type := Exn + A.

Definition KeyError_of (key : string) : Exn :=
  mkExn KeyError ("'" +:+ key +:+ "'") None.

(** [d[key]] on a dict *)
Definition getitem (d : Dict) (key : string) : Result string :=
  match d !! key with
  | Some v => inr v
  | None => inl (KeyError_of key)
  end.

(** A dict display [{key: value, ...}] *)
Definition dict (items : list (string * string)) : Dict := list_to_map items.
Arguments dict : simpl never.

(** ** Settings *)

(** [settings.AUTHENTICATION_OPTIONS]: a dict with the optional keys
    ['password'] and ['external']; the latter holds a list of dicts, one per
    external identity provider. *)
Record AuthenticationOptions : Type := mkAuthenticationOptions {
  opt_password : option Dict;
  opt_external : option (list Dict);
}.

Record Settings : Type := mkSettings {
  AUTHENTICATION_OPTIONS : AuthenticationOptions;
  KEYCLOAK_CLIENT_ID : string;
  KEYCLOAK_AUTHORIZE_URL : string;
  LOGIN_REDIRECT_URL : string;
  PORTAL_TITLE : string;
  GATEWAY_ID : string;
  SERVER_EMAIL : string;
  ADMINS : list (string * string);
}.

(** ** Requests and responses *)

Record HttpRequest : Type := mkHttpRequest {
  method : string;
  GET : Dict;
  POST : Dict;
  HTTP_HOST : string;
}.

(** A bound or unbound Django form, with the errors collected so far as
    pairs of a field name ([None] for [add_error(None, ...)]) and a
    message. *)
Inductive FormClass : Type :=
  | CreateAccountForm
  | ResendEmailVerificationLinkForm.

Record Form : Type := mkForm {
  form_class : FormClass;
  form_data : option Dict;
  cleaned_data : Dict;
  form_errors : list (option string * string);
}.

#[global] Instance FormClass_eq_dec : EqDecision FormClass.
Proof. solve_decision. Defined.

(** [form.add_error(None, ValidationError(message))] *)
Definition add_error (form : Form) (message : string) : Form :=
  mkForm (form_class form) (form_data form) (cleaned_data form)
         (form_errors form ++ [(None, message)]).

(** Values placed in the context of [render]. *)
Inductive CtxValue : Type :=
  | VNone
  | VStr (s : string)
  | VOptions (o : AuthenticationOptions)
  | VForm (f : Form).

Inductive HttpResponse : Type :=
  | Redirect (url : string)
  | Render (template_name : string) (context : list (string * CtxValue))
  | BadRequest (content : string).

(** ** The database tables *)

(** Modelled from the spec: the model classes of [models.py] are not part of
    the sources at hand.  Section 3 of the specification gives a
    VerificationRecord a username, a verification code that is unique across
    all records and unique-indexed, and a verified flag that is initially
    false. *)
Record EmailVerification : Type := mkEmailVerification {
  username : string;
  verification_code : string;
  verified : bool;
}.

(** Modelled from the spec: an EmailTemplate has a subject and a body, both
    template strings, and is identified by a fixed key. *)
Record EmailTemplate : Type := mkEmailTemplate {
  subject : string;
  body : string;
}.

(** Modelled from the spec: the fixed keys of the two templates. *)
Definition VERIFY_EMAIL_TEMPLATE : string := "verify-email".
Definition NEW_USER_EMAIL_TEMPLATE : string := "new-user-email".

#[global] Instance EmailVerification_eq_dec : EqDecision EmailVerification.
Proof. solve_decision. Defined.

(** The [EmailVerification] table maps a primary key to a row. *)
Abbreviation VerificationTable := (gmap nat EmailVerification).

(** ** Collaborator data *)

(** The user profile that [iam_admin_client.get_user] returns. *)
Record UserProfile : Type := mkUserProfile {
  emails : list string;
  firstName : string;
  lastName : string;
}.

(** [django.core.mail.EmailMessage] as the views build it. *)
Record EmailMessage : Type := mkEmailMessage {
  msg_subject : string;
  msg_body : string;
  from_email : string;
  to : list string;
  content_subtype : string;
}.

(** The user object that [authenticate] returns; the views only pass it on
    and print it, so its name is all that is kept. *)
Record User : Type := mkUser { user_name : string }.

(** Calls to collaborators, in the order in which a view makes them. *)
Inductive Event : Type :=
  | CallRegisterUser (username email first_name last_name password : string)
  | CallIsUserExist (username : string)
  | CallIsUserEnabled (username : string)
  | CallEnableUser (username : string)
  | CallGetUser (username : string)
  | CallIsValid (form : FormClass) (data : Dict)
  | CallTemplateRender (source : string) (context : Dict)
  | CallSend (msg : EmailMessage)
  | CallAuthenticate
  | CallLogin (user : option User)
  | CallAuthorizationUrl (client_id scope redirect_uri url : string).

Inductive LogLevel : Type := LDebug | LException.
Inductive MessageLevel : Type := MSuccess | MError.

#[global] Instance EmailMessage_eq_dec : EqDecision EmailMessage.
Proof. solve_decision. Defined.
#[global] Instance User_eq_dec : EqDecision User.
Proof. solve_decision. Defined.
#[global] Instance Event_eq_dec : EqDecision Event.
Proof. solve_decision. Defined.

(** ** Collaborators

    What the views call but do not define: the IAM admin client, form
    validation, the template engine, the mail backend, [uuid.uuid4], the
    authentication backends, the OAuth2 client and a few pure helpers of the
    framework.  A collaborator acts on a state [E] of its own and either
    returns or raises. *)
Class Collaborators (E : Type) : Type := {
  (* iam_admin_client *)
  register_user : string → string → string → string → string → E → Result bool * E;
  is_user_exist : string → E → Result bool * E;
  is_user_enabled : string → E → Result bool * E;
  enable_user : string → E → Result unit * E;
  get_user : string → E → Result UserProfile * E;
  (* forms: full cleaning of the submitted data, giving [cleaned_data] and
     the errors *)
  full_clean : FormClass → Dict → E → Result (Dict * list (option string * string)) * E;
  (* Template(source).render(Context(context)) *)
  Template_render : string → Dict → E → Result string * E;
  (* EmailMessage.send *)
  send : EmailMessage → E → Result unit * E;
  (* the default of EmailVerification.verification_code *)
  uuid4 : E → string * E;
  (* django.contrib.auth; [login] also writes to the session *)
  authenticate : HttpRequest → Dict → E → Result (option User) * E;
  login : option User → Dict → E → (Result unit * Dict) * E;
  (* OAuth2Session(client_id, scope, redirect_uri).authorization_url(url) *)
  authorization_url : string → string → string → string → E → Result (string * string) * E;
  (* pure helpers *)
  reverse : string → list (option string) → string;
  build_absolute_uri : HttpRequest → option string → string;
  get_host : HttpRequest → Result string;
  split_domain_port : string → string * string;
  quote : string → string;
}.

(** ** The world a view runs in *)

Record World (E : Type) : Type := mkWorld {
  ext : E;
  verifications : VerificationTable;
  templates : gmap string EmailTemplate;
  session : Dict;
  trace : list Event;
  messages : list (MessageLevel * string);
  log : list (LogLevel * string);
}.
Arguments mkWorld {E}.
Arguments ext {E}.
Arguments verifications {E}.
Arguments templates {E}.
Arguments session {E}.
Arguments trace {E}.
Arguments messages {E}.
Arguments log {E}.

Section Views.
Context {E : Type} `{!Collaborators E}.
Variable settings : Settings.

(** *** The monad of views: state and exceptions *)

Definition M (A : Type) : Type := World E → Result A * World E.

Definition ret {A} (x : A) : M A := λ w, (inr x, w).

Definition bind {A B} (m : M A) (k : A → M B) : M B := λ w,
  match m w with
  | (inr x, w') => k x w'
  | (inl e, w') => (inl e, w')
  end.

Definition raise {A} (e : Exn) : M A := λ w, (inl e, w).

(** A pure computation that may raise. *)
Definition lift {A} (r : Result A) : M A := λ w, (r, w).

(** [try: body except Exception as e: handler(e)].  What [body] did to the
    world before raising stays done. *)
Definition try_except {A} (body : M A) (handler : Exn → M A) : M A := λ w,
  match body w with
  | (inr x, w') => (inr x, w')
  | (inl e, w') => handler e w'
  end.

Declare Scope view_scope.
Delimit Scope view_scope with view.
Notation "x <- c ;; k" := (bind c (λ x, k))
  (at level 100, c at next level, right associativity) : view_scope.
Notation "c ;; k" := (bind c (λ _, k))
  (at level 100, right associativity) : view_scope.
Local Open Scope view_scope.

(** *** State accessors *)

Definition set_ext (e : E) (w : World E) : World E :=
  mkWorld e (verifications w) (templates w) (session w) (trace w) (messages w) (log w).
Definition set_verifications (t : VerificationTable) (w : World E) : World E :=
  mkWorld (ext w) t (templates w) (session w) (trace w) (messages w) (log w).
Definition set_session (s : Dict) (w : World E) : World E :=
  mkWorld (ext w) (verifications w) (templates w) s (trace w) (messages w) (log w).
Definition record (ev : Event) (w : World E) : World E :=
  mkWorld (ext w) (verifications w) (templates w) (session w) (trace w ++ [ev])
          (messages w) (log w).
Definition add_message (l : MessageLevel) (m : string) (w : World E) : World E :=
  mkWorld (ext w) (verifications w) (templates w) (session w) (trace w)
          (messages w ++ [(l, m)]) (log w).
Definition add_log (l : LogLevel) (m : string) (w : World E) : World E :=
  mkWorld (ext w) (verifications w) (templates w) (session w) (trace w)
          (messages w) (log w ++ [(l, m)]).

(** The world after a call that left the collaborators in the state [e']. *)
Definition after_call (ev : Event) (e' : E) (w : World E) : World E :=
  set_ext e' (record ev w).

(** A call to a collaborator: it is recorded, then it runs. *)
Definition call {A} (ev : Event) (f : E → Result A * E) : M A := λ w,
  let '(r, e') := f (ext w) in (r, after_call ev e' w).

Definition logger_debug (m : string) : M unit := λ w, (inr tt, add_log LDebug m w).
Definition logger_exception (m : string) : M unit := λ w, (inr tt, add_log LException m w).
Definition messages_success (m : string) : M unit := λ w, (inr tt, add_message MSuccess m w).
Definition messages_error (m : string) : M unit := λ w, (inr tt, add_message MError m w).

(** [request.session[key] = value] *)
Definition session_setitem (key value : string) : M unit := λ w,
  (inr tt, set_session (<[key := value]> (session w)) w).

(** [e.message] *)
Definition getattr_message (e : Exn) : M string :=
  match exn_message e with
  | Some m => ret m
  | None => raise (mkExn AttributeError "object has no attribute 'message'" None)
  end.

(** *** The tables *)

Definition rows_with_code (code : string) (t : VerificationTable)
  : list (nat * EmailVerification) :=
  filter (λ p, verification_code p.2 = code) (map_to_list t).

(** Modelled from the spec: the manager of the record class, which
    [models.py] would define.  This is
    [models.EmailVerification.objects.get(verification_code=code)]: the one
    row with that code, together with its primary key; [DoesNotExist] when
    there is none. *)
Definition EmailVerification_objects_get (code : string) : M (nat * EmailVerification) := λ w,
  match rows_with_code code (verifications w) with
  | [] =>
      (inl (mkExn (DoesNotExist "EmailVerification")
                  "EmailVerification matching query does not exist." None), w)
  | [p] => (inr p, w)
  | _ :: _ :: _ =>
      (inl (mkExn (MultipleObjectsReturned "EmailVerification")
                  "get() returned more than one EmailVerification" None), w)
  end.

(** Modelled from the spec: saving a record, with the unique index that
    section 3 puts on the code.  This is [instance.save()]: an instance that
    came from the table ([pk] is set) is written back under its key; a new
    instance is inserted under a key that is not in use, and the index
    refuses a code that a stored row already has. *)
Definition EmailVerification_save (pk : option nat) (row : EmailVerification) : M nat := λ w,
  match pk with
  | Some k => (inr k, set_verifications (<[k := row]> (verifications w)) w)
  | None =>
      match rows_with_code (verification_code row) (verifications w) with
      | [] =>
          let k := fresh (dom (verifications w)) in
          (inr k, set_verifications (<[k := row]> (verifications w)) w)
      | _ :: _ =>
          (inl (mkExn IntegrityError
                      "UNIQUE constraint failed: EmailVerification.verification_code" None), w)
      end
  end.

(** Modelled from the spec: a new record has a generated code and is not
    verified.  This is [models.EmailVerification(username=username)], the
    code being drawn from [uuid4]. *)
Definition EmailVerification_new (username : string) : M EmailVerification := λ w,
  let '(code, e') := uuid4 (ext w) in
  (inr (mkEmailVerification username code false), set_ext e' w).

(** Modelled from the spec: templates are looked up by their fixed key.
    This is [models.EmailTemplate.objects.get(pk=pk)]; [DoesNotExist] when
    the table has no such row. *)
Definition EmailTemplate_objects_get (pk : string) : M EmailTemplate := λ w,
  match templates w !! pk with
  | Some t => (inr t, w)
  | None =>
      (inl (mkExn (DoesNotExist "EmailTemplate")
                  "EmailTemplate matching query does not exist." None), w)
  end.

(** [Template(source).render(context)] *)
Definition render_template (source : string) (context : Dict) : M string :=
  call (CallTemplateRender source context) (Template_render source context).

(** [form.is_valid()]: cleans the data of a bound form and stores the
    outcome in the form. *)
Definition is_valid (form : Form) : M (bool * Form) :=
  match form_data form with
  | None => ret (false, form)
  | Some data =>
      r <- call (CallIsValid (form_class form) data) (full_clean (form_class form) data) ;;
      ret (bool_decide (r.2 = []), mkForm (form_class form) (Some data) r.1 r.2)
  end.

(** *** The login pages *)

(** [request.GET.get(key, None)] as a value for a template *)
Definition get_or_none (d : Dict) (key : string) : CtxValue :=
  match d !! key with
  | Some v => VStr v
  | None => VNone
  end.

Definition start_login (request : HttpRequest) : M HttpResponse :=
  ret (Render "django_airavata_auth/login.html"
              [("next", get_or_none (GET request) "next");
               ("options", VOptions (AUTHENTICATION_OPTIONS settings))]).

Definition start_username_password_login (request : HttpRequest) : M HttpResponse :=
  (* return bad request if password isn't a configured option *)
  match opt_password (AUTHENTICATION_OPTIONS settings) with
  | None => ret (BadRequest "Username/password login is not enabled")
  | Some _ =>
      ret (Render "django_airavata_auth/login_username_password.html"
                  [("next", get_or_none (GET request) "next");
                   ("options", VOptions (AUTHENTICATION_OPTIONS settings));
                   ("login_type", VStr "password")])
  end.

(** *** Login through an external identity provider *)

(** [[ext['idp_alias'] for ext in external_auth_options]] *)
Fixpoint idp_aliases (external_auth_options : list Dict) : Result (list string) :=
  match external_auth_options with
  | [] => inr []
  | ext :: rest =>
      match getitem ext "idp_alias" with
      | inl e => inl e
      | inr a =>
          match idp_aliases rest with
          | inl e => inl e
          | inr l => inr (a :: l)
          end
      end
  end.

(** [settings.AUTHENTICATION_OPTIONS['external']] *)
Definition external_options : Result (list Dict) :=
  match opt_external (AUTHENTICATION_OPTIONS settings) with
  | Some l => inr l
  | None => inl (KeyError_of "external")
  end.

Definition _validate_idp_alias (idp_alias : string) : M unit :=
  external_auth_options <- lift external_options ;;
  valid_idp_aliases <- lift (idp_aliases external_auth_options) ;;
  if decide (idp_alias ∈ valid_idp_aliases) then ret tt
  else raise (mkExn Exception "idp_alias is not valid" None).

Definition redirect_login (request : HttpRequest) (idp_alias : string) : M HttpResponse :=
  _validate_idp_alias idp_alias ;;
  let client_id := KEYCLOAK_CLIENT_ID settings in
  let base_authorize_url := KEYCLOAK_AUTHORIZE_URL settings in
  let redirect_uri :=
    build_absolute_uri request (Some (reverse "django_airavata_auth:callback" [])) in
  let redirect_uri := redirect_uri +:+ "?idp_alias=" +:+ quote idp_alias in
  let redirect_uri :=
    match GET request !! "next" with
    | Some next => redirect_uri +:+ "&next=" +:+ quote next
    | None => redirect_uri
    end in
  r <- call (CallAuthorizationUrl client_id "openid" redirect_uri base_authorize_url)
            (authorization_url client_id "openid" redirect_uri base_authorize_url) ;;
  let authorization_url := r.1 +:+ "&kc_idp_hint=" +:+ quote idp_alias in
  (* Store state in session for later validation *)
  session_setitem "OAUTH2_STATE" r.2 ;;
  session_setitem "OAUTH2_REDIRECT_URI" redirect_uri ;;
  ret (Redirect authorization_url).

(** [login(request, user)] *)
Definition do_login (user : option User) : M unit := λ w,
  let '((r, s'), e') := login user (session w) (ext w) in
  (r, set_ext e' (set_session s' (record (CallLogin user) w))).

(** [authenticate(request=request)]; the backend reads the session. *)
Definition do_authenticate (request : HttpRequest) : M (option User) := λ w,
  call CallAuthenticate (authenticate request (session w)) w.

(** The body of the [try] statement of [callback]. *)
Definition callback_body (request : HttpRequest) : M HttpResponse :=
  user <- do_authenticate request ;;
  do_login user ;;
  let next_url := default (LOGIN_REDIRECT_URL settings) (GET request !! "next") in
  ret (Redirect next_url).

Definition callback (request : HttpRequest) : M HttpResponse :=
  try_except (callback_body request)
    (λ err,
       logger_exception ("An error occurred while processing OAuth2 callback: "
                         +:+ build_absolute_uri request None) ;;
       messages_error ("Failed to process OAuth2 callback: " +:+ exn_str err) ;;
       let idp_alias := GET request !! "idp_alias" in
       ret (Redirect (reverse "django_airavata_auth:callback-error" [idp_alias]))).

(** The loop of [callback_error]: the entries whose alias is the given one,
    each copied. *)
Fixpoint filter_external (idp_alias : string) (external : list Dict)
    (acc : list Dict) : Result (list Dict) :=
  match external with
  | [] => inr acc
  | ext :: rest =>
      match getitem ext "idp_alias" with
      | inl e => inl e
      | inr a =>
          if decide (a = idp_alias)
          then filter_external idp_alias rest (acc ++ [ext])
          else filter_external idp_alias rest acc
      end
  end.

Definition callback_error (request : HttpRequest) (idp_alias : string) : M HttpResponse :=
  _validate_idp_alias idp_alias ;;
  (* Create a filtered options object with just the given idp_alias *)
  external <- lift external_options ;;
  filtered <- lift (filter_external idp_alias external []) ;;
  let options := mkAuthenticationOptions None (Some filtered) in
  ret (Render "django_airavata_auth/callback-error.html"
              [("idp_alias", VStr idp_alias); ("options", VOptions options)]).

(** *** Account creation and email verification *)

Definition _create_and_send_email_verification_link (request : HttpRequest)
    (username email first_name last_name : string) : M unit :=
  email_verification <- EmailVerification_new username ;;
  EmailVerification_save None email_verification ;;
  let verification_uri :=
    build_absolute_uri request
      (Some (reverse "django_airavata_auth:verify_email"
                     [Some (verification_code email_verification)])) in
  logger_debug ("verification_uri=" +:+ verification_uri) ;;
  verify_email_template <- EmailTemplate_objects_get VERIFY_EMAIL_TEMPLATE ;;
  let context := dict [
    ("username", username);
    ("email", email);
    ("first_name", first_name);
    ("last_name", last_name);
    ("portal_title", PORTAL_TITLE settings);
    ("url", verification_uri)
  ] in
  subject <- render_template (subject verify_email_template) context ;;
  body <- render_template (body verify_email_template) context ;;
  let msg := mkEmailMessage subject body
    (PORTAL_TITLE settings +:+ " <" +:+ SERVER_EMAIL settings +:+ ">")
    [first_name +:+ " " +:+ last_name +:+ " <" +:+ email +:+ ">"]
    "html" in
  call (CallSend msg) (send msg).

(** Where a view stands after its [if request.method == 'POST'] block: it
    has returned a response, or it goes on to render the form. *)
Inductive Flow : Type :=
  | Returned (response : HttpResponse)
  | Fallthrough (form : Form).

(** The body of the [try] statement of [create_account]. *)
Definition create_account_body (request : HttpRequest) (form : Form) : M Flow :=
  username <- lift (getitem (cleaned_data form) "username") ;;
  email <- lift (getitem (cleaned_data form) "email") ;;
  first_name <- lift (getitem (cleaned_data form) "first_name") ;;
  last_name <- lift (getitem (cleaned_data form) "last_name") ;;
  password <- lift (getitem (cleaned_data form) "password") ;;
  success <- call (CallRegisterUser username email first_name last_name password)
                  (register_user username email first_name last_name password) ;;
  if negb success then
    ret (Fallthrough (add_error form "Failed to register user with IAM service"))
  else
    _create_and_send_email_verification_link request username email first_name last_name ;;
    messages_success
      ("Account request processed successfully. Before you "
       +:+ "can login you need to confirm your email address. "
       +:+ "We've sent you an email with a link that you should "
       +:+ "click on to complete the account creation process.") ;;
    ret (Returned (Redirect (reverse "django_airavata_auth:create_account" []))).

Definition create_account (request : HttpRequest) : M HttpResponse :=
  flow <-
    (if decide (method request = "POST") then
       r <- is_valid (mkForm CreateAccountForm (Some (POST request)) ∅ []) ;;
       let form := r.2 in
       if r.1 then
         try_except (create_account_body request form)
           (λ e,
              logger_exception "Failed to create account for user" ;;
              message <- getattr_message e ;;
              ret (Fallthrough (add_error form message)))
       else ret (Fallthrough form)
     else ret (Fallthrough (mkForm CreateAccountForm None ∅ []))) ;;
  match flow with
  | Returned response => ret response
  | Fallthrough form =>
      ret (Render "django_airavata_auth/create_account.html"
                  [("options", VOptions (AUTHENTICATION_OPTIONS settings));
                   ("form", VForm form)])
  end.

(** [l[0]] on a list *)
Definition first_item (l : list string) : Result string :=
  match l with
  | x :: _ => inr x
  | [] => inl (mkExn IndexError "list index out of range" None)
  end.

(** The body of the [try] statement of [verify_email]. *)
Definition verify_email_body (request : HttpRequest) (code : string) : M HttpResponse :=
  found <- EmailVerification_objects_get code ;;
  let email_verification :=
    mkEmailVerification (username found.2) (verification_code found.2) true in
  EmailVerification_save (Some found.1) email_verification ;;
  (* Check if user is enabled, if so redirect to login page *)
  let username := username email_verification in
  logger_debug ("Email address verified for " +:+ username) ;;
  enabled <- call (CallIsUserEnabled username) (is_user_enabled username) ;;
  if (enabled : bool) then
    logger_debug ("User " +:+ username +:+ " is already enabled") ;;
    messages_success ("Your account has already been successfully created. "
                      +:+ "Please log in now.") ;;
    ret (Redirect (reverse "django_airavata_auth:login" []))
  else
    logger_debug ("Enabling user " +:+ username) ;;
    (* enable user and inform admins *)
    call (CallEnableUser username) (enable_user username) ;;
    user_profile <- call (CallGetUser username) (get_user username) ;;
    new_user_email_template <- EmailTemplate_objects_get NEW_USER_EMAIL_TEMPLATE ;;
    email_address <- lift (first_item (emails user_profile)) ;;
    let first_name := firstName user_profile in
    let last_name := lastName user_profile in
    host <- lift (get_host request) ;;
    let domain := (split_domain_port host).1 in
    let context := dict [
      ("username", username);
      ("email", email_address);
      ("first_name", first_name);
      ("last_name", last_name);
      ("portal_title", PORTAL_TITLE settings);
      ("gateway_id", GATEWAY_ID settings);
      ("http_host", domain)
    ] in
    subject <- render_template (subject new_user_email_template) context ;;
    body <- render_template (body new_user_email_template) context ;;
    let msg := mkEmailMessage subject body
      (PORTAL_TITLE settings +:+ " <" +:+ SERVER_EMAIL settings +:+ ">")
      (map snd (ADMINS settings))
      "html" in
    call (CallSend msg) (send msg) ;;
    messages_success ("Your account has been successfully created. "
                      +:+ "Please log in now.") ;;
    ret (Redirect (reverse "django_airavata_auth:login" [])).

Definition verify_email (request : HttpRequest) (code : string) : M HttpResponse :=
  try_except (verify_email_body request code)
    (λ e,
       if is_ObjectDoesNotExist e then
         (* if doesn't exist, give user a form where they can enter their
            username to resend verification code *)
         logger_exception ("EmailVerification object doesn't exist for code " +:+ code) ;;
         messages_error
           ("Email verification failed. Please enter your username and we "
            +:+ "will send you another email verification link.") ;;
         ret (Redirect (reverse "django_airavata_auth:resend_email_link" []))
       else
         logger_exception "Email verification processing failed!" ;;
         messages_error
           ("Email verification failed. Please try clicking the email "
            +:+ "verification link again later.") ;;
         ret (Redirect (reverse "django_airavata_auth:create_account" []))).

(** The body of the [try] statement of [resend_email_link]. *)
Definition resend_email_link_body (request : HttpRequest) (form : Form) : M Flow :=
  username <- lift (getitem (cleaned_data form) "username") ;;
  exists_ <- call (CallIsUserExist username) (is_user_exist username) ;;
  (if (exists_ : bool) then
     user_profile <- call (CallGetUser username) (get_user username) ;;
     email_address <- lift (first_item (emails user_profile)) ;;
     _create_and_send_email_verification_link request username email_address
       (firstName user_profile) (lastName user_profile) ;;
     messages_success
       ("Email verification link sent successfully. Please "
        +:+ "click on the link in the email that we sent "
        +:+ "to your email address.")
   else
     messages_error
       ("Unable to resend email verification link. Please "
        +:+ "contact the website administrator for further "
        +:+ "assistance.")) ;;
  ret (Returned (Redirect (reverse "django_airavata_auth:resend_email_link" []))).

Definition resend_email_link (request : HttpRequest) : M HttpResponse :=
  flow <-
    (if decide (method request = "POST") then
       r <- is_valid (mkForm ResendEmailVerificationLinkForm (Some (POST request)) ∅ []) ;;
       let form := r.2 in
       if r.1 then
         try_except (resend_email_link_body request form)
           (λ e,
              logger_exception "Failed to resend email verification link" ;;
              ret (Fallthrough (add_error form (exn_str e))))
       else ret (Fallthrough form)
     else ret (Fallthrough (mkForm ResendEmailVerificationLinkForm None ∅ []))) ;;
  match flow with
  | Returned response => ret response
  | Fallthrough form =>
      ret (Render "django_airavata_auth/verify_email.html" [("form", VForm form)])
  end.

(** *** Frame condition *)

(** A computation that leaves the [EmailVerification] table as it finds it,
    whether it returns or raises. *)
Definition keeps_verifications {A} (m : M A) : Prop :=
  ∀ w, verifications (m w).2 = verifications w.

End Views.

Arguments M E A : clear implicits.

(** ** The specification's wording *)

(** The keys of the context of the verification email as the specification
    lists them; to be compared with the context that
    [_create_and_send_email_verification_link] builds. *)
Definition claimed_verify_email_keys : gset string :=
  {[ "username"; "email"; "first_name"; "last_name"; "portal_title";
     "verification_url" ]}.

(** ** A concrete set of collaborators

    An IAM service that keeps users in a map, a template engine that returns
    the source unchanged, a mail backend that queues messages while it is
    up, and UUIDs drawn from a supply.  The examples at the end of the file
    run the views against it. *)
Module Demo.

Record IamUser : Type := mkIamUser {
  profile : UserProfile;
  enabled : bool;
}.

Record Ext : Type := mkExt {
  users : gmap string IamUser;
  uuids : list string;
  mail_up : bool;
  outbox : list EmailMessage;
  oauth_ok : bool;
}.

Definition no_such_user : Exn :=
  mkExn (OtherError "TException") "user not found" (Some "user not found").

Definition connection_refused : Exn :=
  mkExn (OtherError "ConnectionRefusedError") "[Errno 111] Connection refused" None.

Definition put_user (u : string) (i : IamUser) (x : Ext) : Ext :=
  mkExt (<[u := i]> (users x)) (uuids x) (mail_up x) (outbox x) (oauth_ok x).

#[global] Instance demo_collaborators : Collaborators Ext := {|
  register_user u e f l p x :=
    match users x !! u with
    | Some _ => (inr false, x)
    | None => (inr true, put_user u (mkIamUser (mkUserProfile [e] f l) false) x)
    end;
  is_user_exist u x := (inr (bool_decide (is_Some (users x !! u))), x);
  is_user_enabled u x :=
    match users x !! u with
    | Some i => (inr (enabled i), x)
    | None => (inl no_such_user, x)
    end;
  enable_user u x :=
    match users x !! u with
    | Some i => (inr tt, put_user u (mkIamUser (profile i) true) x)
    | None => (inl no_such_user, x)
    end;
  get_user u x :=
    match users x !! u with
    | Some i => (inr (profile i), x)
    | None => (inl no_such_user, x)
    end;
  full_clean _ data x := (inr (data, []), x);
  Template_render source _ x := (inr source, x);
  send msg x :=
    if mail_up x
    then (inr tt, mkExt (users x) (uuids x) (mail_up x) (outbox x ++ [msg]) (oauth_ok x))
    else (inl connection_refused, x);
  uuid4 x :=
    match uuids x with
    | c :: rest => (c, mkExt (users x) rest (mail_up x) (outbox x) (oauth_ok x))
    | [] => ("00000000-0000-0000-0000-000000000000", x)
    end;
  authenticate _ _ x :=
    if oauth_ok x then (inr (Some (mkUser "alice")), x)
    else (inl (mkExn Exception "state mismatch" None), x);
  login user s x :=
    match user with
    | Some u => ((inr tt, <["_auth_user_id" := user_name u]> s), x)
    | None => ((inl (mkExn AttributeError "no backend" None), s), x)
    end;
  authorization_url client_id _ redirect_uri url x :=
    (inr (url +:+ "?client_id=" +:+ client_id +:+ "&redirect_uri=" +:+ redirect_uri,
          "state-1"), x);
  reverse name args := "/" +:+ name +:+ "/" +:+ String.concat "/" (default "None" <$> args);
  build_absolute_uri request path :=
    "https://" +:+ HTTP_HOST request +:+ default "/" path;
  get_host request := inr (HTTP_HOST request);
  split_domain_port host := (host, "");
  quote s := s;
|}.

Definition settings : Settings := {|
  AUTHENTICATION_OPTIONS := {|
    opt_password := Some {[ "name" := "Gateway" ]};
    opt_external := Some [
      {[ "idp_alias" := "cilogon"; "name" := "CILogon" ]};
      {[ "idp_alias" := "github"; "name" := "GitHub" ]}
    ];
  |};
  KEYCLOAK_CLIENT_ID := "portal";
  KEYCLOAK_AUTHORIZE_URL := "https://iam.example.org/auth";
  LOGIN_REDIRECT_URL := "/workspace/";
  PORTAL_TITLE := "Gateway";
  GATEWAY_ID := "default";
  SERVER_EMAIL := "portal@example.org";
  ADMINS := [("Admin", "admin@example.org"); ("Ops", "ops@example.org")];
|}.

Definition both_templates : gmap string EmailTemplate :=
  {[ VERIFY_EMAIL_TEMPLATE := mkEmailTemplate "Please verify" "<a href={{url}}>verify</a>";
     NEW_USER_EMAIL_TEMPLATE := mkEmailTemplate "New user" "<p>{{username}}</p>" ]}.

Definition alice : IamUser :=
  mkIamUser (mkUserProfile ["a@x.com"] "Alice" "A") false.

Definition get_request (query : Dict) : HttpRequest :=
  mkHttpRequest "GET" query ∅ "gateway.example.org".

Definition post_request (data : Dict) : HttpRequest :=
  mkHttpRequest "POST" ∅ data "gateway.example.org".

Definition registration : Dict :=
  {[ "username" := "alice"; "email" := "a@x.com"; "first_name" := "Alice";
     "last_name" := "A"; "password" := "pw" ]}.

(** Nobody is registered yet. *)
Definition empty_world : World Ext :=
  mkWorld (mkExt ∅ ["c0de-1"; "c0de-2"] true [] false) ∅ both_templates ∅ [] [] [].

(** Alice is registered and disabled, her verification link is pending. *)
Definition pending_world : World Ext :=
  mkWorld (mkExt {[ "alice" := alice ]} ["c0de-2"] true [] false)
          {[ 1 := mkEmailVerification "alice" "c0de-1" false ]}
          both_templates ∅ [] [] [].

(** Alice has been enabled since. *)
Definition enabled_world : World Ext :=
  mkWorld (mkExt {[ "alice" := mkIamUser (profile alice) true ]} ["c0de-2"] true [] false)
          {[ 1 := mkEmailVerification "alice" "c0de-1" false ]}
          both_templates ∅ [] [] [].

(** The worlds above with an empty [EmailTemplate] table. *)
Definition empty_world_no_templates : World Ext :=
  mkWorld (ext empty_world) (verifications empty_world) ∅ ∅ [] [] [].

Definition pending_world_no_templates : World Ext :=
  mkWorld (ext pending_world) (verifications pending_world) ∅ ∅ [] [] [].

End Demo.

(** ** Login with a password

    [handle_login] calls [authenticate] with credentials, and it redirects
    to a URL that the request supplies, which [redirect] resolves and may
    refuse; these are two more collaborators. *)
Class LoginCollaborators (E : Type) : Type := {
  (* authenticate(username=username, password=password, request=request) *)
  authenticate_credentials :
    string → string → HttpRequest → Dict → E → Result (option User) * E;
  (* the resolution of its argument by redirect(to) *)
  resolve_url : string → Result string;
}.

Declare Scope view_scope.

Section PasswordLogin.
Context {E : Type} `{!Collaborators E} `{!LoginCollaborators E}.
Variable settings : Settings.

Notation "x <- c ;; k" := (bind c (λ x, k))
  (at level 100, c at next level, right associativity) : view_scope.
Notation "c ;; k" := (bind c (λ _, k))
  (at level 100, right associativity) : view_scope.
Local Open Scope view_scope.

(** [str(user)] for the log line *)
Definition str_user (user : option User) : string :=
  match user with
  | Some u => user_name u
  | None => "None"
  end.

Definition do_authenticate_credentials (username password : string)
    (request : HttpRequest) : M E (option User) := λ w,
  call CallAuthenticate
    (authenticate_credentials username password request (session w)) w.

(** The template that [handle_login] renders on failure:
    [if login_type and login_type == 'password']. *)
Definition login_template (login_type : option string) : string :=
  match login_type with
  | Some t =>
      if negb (String.eqb t "") && String.eqb t "password"
      then "django_airavata_auth/login_username_password.html"
      else "django_airavata_auth/login.html"
  | None => "django_airavata_auth/login.html"
  end.

(** The body of the [try] statement of [handle_login]: a response when the
    user is logged in, nothing when the form is to be shown again. *)
Definition handle_login_body (request : HttpRequest) (user : option User)
    : M E (option HttpResponse) :=
  match user with
  | Some u =>
      do_login (Some u) ;;
      let next_url := default (LOGIN_REDIRECT_URL settings) (POST request !! "next") in
      url <- lift (resolve_url next_url) ;;
      ret (Some (Redirect url))
  | None =>
      messages_error "Login failed. Please try again." ;;
      ret None
  end.

Definition handle_login (request : HttpRequest) : M E HttpResponse :=
  username <- lift (getitem (POST request) "username") ;;
  password <- lift (getitem (POST request) "password") ;;
  let login_type := POST request !! "login_type" in
  let template := login_template login_type in
  user <- do_authenticate_credentials username password request ;;
  logger_debug ("authenticated user: " +:+ str_user user) ;;
  response <-
    try_except (handle_login_body request user)
      (λ err,
         messages_error ("Login failed: " +:+ exn_str err +:+ ". Please try again.") ;;
         ret None) ;;
  match response with
  | Some r => ret r
  | None =>
      ret (Render template
             [("username", VStr username);
              ("next", get_or_none (POST request) "next");
              ("options", VOptions (AUTHENTICATION_OPTIONS settings));
              ("login_type", get_or_none (POST request) "login_type")])
  end.

End PasswordLogin.

(** ** Conditions on what a computation does to the world *)

Section Frames.
Context {E : Type}.

(** Every call that [m] makes to a collaborator satisfies [P], whether [m]
    returns or raises. *)
Definition calls_only {A} (P : Event → Prop) (m : M E A) : Prop :=
  ∀ w, ∃ evs, trace (m w).2 = trace w ++ evs ∧ Forall P evs.

(** The table [t'] is [t], or [t] with one more row: under a key that [t]
    does not use, unverified, with a code that no row of [t] has. *)
Definition at_most_one_new (t t' : VerificationTable) : Prop :=
  t' = t ∨
  ∃ k r,
    t !! k = None ∧ verified r = false ∧
    (∀ k' r', t !! k' = Some r' → verification_code r' ≠ verification_code r) ∧
    t' = <[k := r]> t.

Definition inserts_at_most_one {A} (m : M E A) : Prop :=
  ∀ w, at_most_one_new (verifications w) (verifications (m w).2).

End Frames.

(** The calls of [_create_and_send_email_verification_link]: rendering, and
    sending an HTML message to the one address given. *)
Definition link_call (recipient : string) (ev : Event) : Prop :=
  match ev with
  | CallTemplateRender _ _ => True
  | CallSend msg => to msg = [recipient] ∧ content_subtype msg = "html"
  | _ => False
  end.

(** The calls of [create_account]: validation of the form, registration,
    rendering, and sending to a single recipient. *)
Definition registration_call (ev : Event) : Prop :=
  match ev with
  | CallIsValid CreateAccountForm _ => True
  | CallRegisterUser _ _ _ _ _ => True
  | CallTemplateRender _ _ => True
  | CallSend msg => length (to msg) = 1
  | _ => False
  end.

(** The calls of [resend_email_link]. *)
Definition resend_call (ev : Event) : Prop :=
  match ev with
  | CallIsValid ResendEmailVerificationLinkForm _ => True
  | CallIsUserExist _ => True
  | CallGetUser _ => True
  | CallTemplateRender _ _ => True
  | CallSend msg => length (to msg) = 1
  | _ => False
  end.

(** The calls of [verify_email]: the three calls to the IAM client,
    rendering, and sending to the configured administrators. *)
Definition verification_call (settings : Settings) (ev : Event) : Prop :=
  match ev with
  | CallIsUserEnabled _ => True
  | CallEnableUser _ => True
  | CallGetUser _ => True
  | CallTemplateRender _ _ => True
  | CallSend msg => to msg = (ADMINS settings).*2
  | _ => False
  end.

(** ** URL configuration of the groups application

    Source: [django_airavata/apps/groups/urls.py]. *)
Module GroupsUrls.
Import Stdlib.Strings.Ascii.

Record UrlPattern : Type := url {
  regex : string;
  view : string;
  name : string;
}.

Definition app_name : string := "django_airavata_groups".

Definition urlpatterns : list UrlPattern := [
  url "^$" "groups_manage" "manage";
  url "^create/" "groups_create" "create";
  url "^view/" "view_group" "view";
  url "^add/" "add_members" "add";
  url "^remove/" "remove_members" "remove";
  url "^delete/" "delete_group" "delete";
  url "^leave/" "leave_group" "leave"
].

(** Characters with a meaning of their own in a regular expression. *)
Definition is_meta (c : Ascii.ascii) : bool :=
  bool_decide (c ∈ String.list_ascii_of_string ".^$*+?{}[]\|()").

(** The regular expressions read here: literal characters, possibly
    followed by a final [$]. *)
Fixpoint supported (pattern : string) : bool :=
  match pattern with
  | EmptyString => true
  | String c rest =>
      if bool_decide (c = "$"%char) && bool_decide (rest = EmptyString) then true
      else negb (is_meta c) && supported rest
  end.

(** Matching of the part of a regular expression after its [^] against a
    path.  Without a final [$] the rest of the path is free.  A final [$]
    matches at the end of the path and before a newline that ends the
    path. *)
Fixpoint match_anchored (pattern path : string) : bool :=
  match pattern with
  | EmptyString => true
  | String c rest =>
      if bool_decide (c = "$"%char) && bool_decide (rest = EmptyString)
      then bool_decide (path = EmptyString ∨ path = String "010"%char EmptyString)
      else
        match path with
        | EmptyString => false
        | String d path' => bool_decide (c = d) && match_anchored rest path'
        end
  end.

(** [re.compile(regex).search(path)] for a regular expression that starts
    with [^] and goes on as above; [None] for any other expression. *)
Definition regex_search (regex path : string) : option bool :=
  match regex with
  | String "^"%char pattern =>
      if supported pattern then Some (match_anchored pattern path) else None
  | _ => None
  end.

(** The resolver: the first pattern whose expression matches. *)
Fixpoint resolve (patterns : list UrlPattern) (path : string)
    : option (option UrlPattern) :=
  match patterns with
  | [] => Some None
  | p :: rest =>
      match regex_search (regex p) path with
      | None => None
      | Some true => Some (Some p)
      | Some false => resolve rest path
      end
  end.

End GroupsUrls.

(** The collaborator of [handle_login] for the examples: one account. *)
Module DemoLogin.

#[global] Instance demo_login : LoginCollaborators Demo.Ext := {|
  authenticate_credentials username password _ _ x :=
    if bool_decide (username = "alice" ∧ password = "pw")
    then (inr (Some (mkUser "alice")), x)
    else (inr None, x);
  resolve_url to :=
    if String.prefix "/" to then inr to
    else inl (mkExn (OtherError "NoReverseMatch")
                ("Reverse for '" +:+ to +:+ "' not found.") None);
|}.

End DemoLogin.

(** Collaborators for the examples of failures: a form that requires a
    username, and an IAM service that is down.  They keep no state. *)
Module DemoOutage.

Definition iam_down : Exn :=
  mkExn (OtherError "TException") "IAM service unavailable"
        (Some "IAM service unavailable").

#[global] Instance outage_collaborators : Collaborators unit := {|
  register_user _ _ _ _ _ x := (inl iam_down, x);
  is_user_exist _ x := (inl iam_down, x);
  is_user_enabled _ x := (inl iam_down, x);
  enable_user _ x := (inl iam_down, x);
  get_user _ x := (inl iam_down, x);
  full_clean _ data x :=
    match data !! "username" with
    | Some _ => (inr (data, []), x)
    | None => (inr (data, [(Some "username", "This field is required.")]), x)
    end;
  Template_render source _ x := (inr source, x);
  send _ x := (inr tt, x);
  uuid4 x := ("00000000-0000-0000-0000-000000000000", x);
  authenticate _ _ x := (inr None, x);
  login _ s x := ((inr tt, s), x);
  authorization_url _ _ _ url x := (inr (url, "state"), x);
  reverse name _ := "/" +:+ name +:+ "/";
  build_absolute_uri request path := HTTP_HOST request +:+ default "/" path;
  get_host request := inr (HTTP_HOST request);
  split_domain_port host := (host, "");
  quote s := s;
|}.

Definition world : World unit := mkWorld tt ∅ Demo.both_templates ∅ [] [] [].

(** Settings with an external option that lacks its [idp_alias]. *)
Definition malformed_settings : Settings := {|
  AUTHENTICATION_OPTIONS := {|
    opt_password := None;
    opt_external := Some [
      {[ "idp_alias" := "cilogon"; "name" := "CILogon" ]};
      {[ "name" := "GitHub" ]}
    ];
  |};
  KEYCLOAK_CLIENT_ID := "portal";
  KEYCLOAK_AUTHORIZE_URL := "https://iam.example.org/auth";
  LOGIN_REDIRECT_URL := "/workspace/";
  PORTAL_TITLE := "Gateway";
  GATEWAY_ID := "default";
  SERVER_EMAIL := "portal@example.org";
  ADMINS := [];
|}.

End DemoOutage.

(** ** Properties of the views *)

Section Properties.
Context {E : Type} `{!Collaborators E}.
Variable settings : Settings.
Implicit Types (w : World E) (t : VerificationTable) (request : HttpRequest).
Implicit Types (code idp_alias : string).

(** *** Running the monad *)

Lemma bind_inr {A B} (m : M E A) (k : A → M E B) w x w1 :
  m w = (inr x, w1) → bind m k w = k x w1.
Proof. unfold bind. by intros ->. Qed.

Lemma bind_inl {A B} (m : M E A) (k : A → M E B) w e w1 :
  m w = (inl e, w1) → bind m k w = (inl e, w1).
Proof. unfold bind. by intros ->. Qed.

Lemma bind_inr_inv {A B} (m : M E A) (k : A → M E B) w y w2 :
  bind m k w = (inr y, w2) →
  ∃ x w1, m w = (inr x, w1) ∧ k x w1 = (inr y, w2).
Proof.
  unfold bind. destruct (m w) as [[e|x] w1]; [done|]. eauto.
Qed.

Lemma call_inr_inv {A} (ev : Event) (f : E → Result A * E) w x w1 :
  call ev f w = (inr x, w1) →
  ∃ e1, f (ext w) = (inr x, e1) ∧ w1 = after_call ev e1 w.
Proof.
  unfold call. destruct (f (ext w)) as [r e1]. intros [= -> <-]. eauto.
Qed.

Lemma call_eq {A} (ev : Event) (f : E → Result A * E) w r e1 :
  f (ext w) = (r, e1) → call ev f w = (r, after_call ev e1 w).
Proof. unfold call. by intros ->. Qed.

Lemma try_except_inr {A} (body : M E A) handler w x w1 :
  body w = (inr x, w1) → try_except body handler w = (inr x, w1).
Proof. unfold try_except. by intros ->. Qed.

Lemma try_except_inl {A} (body : M E A) handler w e w1 :
  body w = (inl e, w1) → try_except body handler w = handler e w1.
Proof. unfold try_except. by intros ->. Qed.

(** Reads a field of a world that was built by the state accessors. *)
Ltac world_simpl :=
  cbn [ext verifications templates session trace messages log
       after_call set_ext set_verifications set_session record add_message
       add_log];
  rewrite <- ?app_assoc; cbn [app].

(** Takes the first action off a run that did not raise. *)
Ltac bind_inv H x w Hx :=
  apply bind_inr_inv in H as (x & w & Hx & H).

Ltac call_inv H e :=
  let He := fresh "Hcall" in
  apply call_inr_inv in H as (e & He & ->); simpl in He.

(** *** The verification table *)

Lemma elem_of_rows_with_code code t k r :
  (k, r) ∈ rows_with_code code t ↔ t !! k = Some r ∧ verification_code r = code.
Proof.
  unfold rows_with_code.
  rewrite list_elem_of_filter, elem_of_map_to_list. simpl. tauto.
Qed.

Lemma rows_with_code_nil code t :
  rows_with_code code t = [] ↔
  ∀ k r, t !! k = Some r → verification_code r ≠ code.
Proof.
  split.
  - intros Hnil k r Hk Hcode.
    assert ((k, r) ∈ rows_with_code code t) as Hin
      by (apply elem_of_rows_with_code; done).
    rewrite Hnil in Hin. by apply not_elem_of_nil in Hin.
  - intros Hnone. apply elem_of_nil_inv. intros [k r] Hin.
    apply elem_of_rows_with_code in Hin as [Hk Hcode].
    by apply (Hnone k r).
Qed.

(** A successful lookup returns a row of the table that carries the code. *)
Lemma objects_get_found code w k r w' :
  EmailVerification_objects_get code w = (inr (k, r), w') →
  w' = w ∧ verifications w !! k = Some r ∧ verification_code r = code.
Proof.
  unfold EmailVerification_objects_get.
  destruct (rows_with_code code (verifications w)) as [|p [|q l]] eqn:Hrows;
    intros Heq; simplify_eq.
  split; [done|]. apply elem_of_rows_with_code.
  rewrite Hrows. by apply list_elem_of_singleton.
Qed.

(** Under the unique index, the row that carries a code is the one found. *)
Lemma objects_get_unique code w k r :
  verifications w !! k = Some r →
  verification_code r = code →
  (∀ k' r', verifications w !! k' = Some r' → verification_code r' = code → k' = k) →
  EmailVerification_objects_get code w = (inr (k, r), w).
Proof.
  intros Hk Hcode Huniq. unfold EmailVerification_objects_get.
  assert (∀ p, p ∈ rows_with_code code (verifications w) → p = (k, r)) as Hall.
  { intros [k' r'] [Hk' Hc']%elem_of_rows_with_code.
    assert (k' = k) as -> by eauto. congruence. }
  assert ((k, r) ∈ rows_with_code code (verifications w)) as Hin
    by (by apply elem_of_rows_with_code).
  assert (NoDup (rows_with_code code (verifications w))) as Hnd
    by (apply NoDup_filter, NoDup_map_to_list).
  destruct (rows_with_code code (verifications w)) as [|p [|q l]].
  - by apply not_elem_of_nil in Hin.
  - rewrite (Hall p) by apply list_elem_of_here. done.
  - exfalso. apply NoDup_cons in Hnd as [Hp _]. apply Hp.
    rewrite (Hall p), (Hall q); [apply list_elem_of_here| |].
    + apply list_elem_of_further, list_elem_of_here.
    + apply list_elem_of_here.
Qed.

Lemma objects_get_world code w : (EmailVerification_objects_get code w).2 = w.
Proof.
  unfold EmailVerification_objects_get.
  by destruct (rows_with_code code (verifications w)) as [|p [|q l]].
Qed.

Lemma objects_get_eq code w p :
  (EmailVerification_objects_get code w).1 = inr p →
  EmailVerification_objects_get code w = (inr p, w).
Proof.
  intros Hp. rewrite <- (objects_get_world code w) at 2.
  rewrite <- Hp. by destruct (EmailVerification_objects_get code w).
Qed.

(** *** Verification of an unknown code *)

(** C1. A verification code that no stored record carries: the lookup raises
    the [DoesNotExist] of the record class, the view answers with a redirect
    to the resend-link page and one error message, no collaborator is called
    and the table is what it was. *)
Theorem verify_email_unknown_code request code w :
  (∀ k r, verifications w !! k = Some r → verification_code r ≠ code) →
  ∃ e w',
    (verify_email_body settings request code w).1 = inl e ∧
    exn_class e = DoesNotExist "EmailVerification" ∧
    verify_email settings request code w =
      (inr (Redirect (reverse "django_airavata_auth:resend_email_link" [])), w') ∧
    verifications w' = verifications w ∧
    trace w' = trace w ∧
    ext w' = ext w ∧
    messages w' = messages w ++
      [(MError, "Email verification failed. Please enter your username and we "
                +:+ "will send you another email verification link.")].
Proof.
  intros Hnone. apply rows_with_code_nil in Hnone.
  unfold verify_email, try_except, verify_email_body, bind,
    EmailVerification_objects_get.
  rewrite Hnone. simpl. eauto 10.
Qed.

(** *** Verification of a known code *)

(** C2. The record is found and the IAM client reports the account as
    enabled: the view redirects to the login page with the message that the
    account has already been created.  The only call to a collaborator is
    the query of the enabled state, so nothing is enabled and nothing is
    sent; apart from the verified flag of the record, the tables and the
    session are what they were. *)
Theorem verify_email_already_enabled request code w k r e' :
  (EmailVerification_objects_get code w).1 = inr (k, r) →
  is_user_enabled (username r) (ext w) = (inr true, e') →
  ∃ w',
    verify_email settings request code w =
      (inr (Redirect (reverse "django_airavata_auth:login" [])), w') ∧
    trace w' = trace w ++ [CallIsUserEnabled (username r)] ∧
    messages w' = messages w ++
      [(MSuccess, "Your account has already been successfully created. "
                  +:+ "Please log in now.")] ∧
    verifications w' =
      <[k := mkEmailVerification (username r) (verification_code r) true]>
        (verifications w) ∧
    ext w' = e' ∧ session w' = session w ∧ templates w' = templates w.
Proof.
  intros Hget%objects_get_eq Henabled.
  unfold verify_email, try_except, verify_email_body, bind.
  rewrite Hget. simpl. unfold call. simpl. rewrite Henabled. simpl.
  eauto 10.
Qed.

(** C3. The record is found, the IAM client reports the account as not
    enabled, and the steps that follow succeed: the record is stored with its
    verified flag set; the calls to collaborators are, in this order, the
    query of the enabled state, one [enable_user], one [get_user], the
    rendering of the subject and of the body of the "new-user-email"
    template, both with the context of the seven keys username, email,
    first_name, last_name, portal_title, gateway_id and http_host, and one
    [send] of a message addressed to the configured administrators; the view
    reports that the account has been created and redirects to the login
    page. *)
Theorem verify_email_enables_and_notifies request code w k r e1 e2 e3 e4 e5 e6
    user_profile email_address others template host context subject' body' msg :
  (EmailVerification_objects_get code w).1 = inr (k, r) →
  is_user_enabled (username r) (ext w) = (inr false, e1) →
  enable_user (username r) e1 = (inr tt, e2) →
  get_user (username r) e2 = (inr user_profile, e3) →
  templates w !! NEW_USER_EMAIL_TEMPLATE = Some template →
  emails user_profile = email_address :: others →
  get_host request = inr host →
  context = dict [
    ("username", username r);
    ("email", email_address);
    ("first_name", firstName user_profile);
    ("last_name", lastName user_profile);
    ("portal_title", PORTAL_TITLE settings);
    ("gateway_id", GATEWAY_ID settings);
    ("http_host", (split_domain_port host).1)
  ] →
  Template_render (subject template) context e3 = (inr subject', e4) →
  Template_render (body template) context e4 = (inr body', e5) →
  msg = mkEmailMessage subject' body'
          (PORTAL_TITLE settings +:+ " <" +:+ SERVER_EMAIL settings +:+ ">")
          (map snd (ADMINS settings)) "html" →
  send msg e5 = (inr tt, e6) →
  ∃ w',
    verify_email settings request code w =
      (inr (Redirect (reverse "django_airavata_auth:login" [])), w') ∧
    verifications w' =
      <[k := mkEmailVerification (username r) (verification_code r) true]>
        (verifications w) ∧
    dom context =
      {[ "username"; "email"; "first_name"; "last_name"; "portal_title";
         "gateway_id"; "http_host" ]} ∧
    trace w' = trace w ++
      [CallIsUserEnabled (username r); CallEnableUser (username r);
       CallGetUser (username r);
       CallTemplateRender (subject template) context;
       CallTemplateRender (body template) context;
       CallSend msg] ∧
    to msg = (ADMINS settings).*2 ∧
    messages w' = messages w ++
      [(MSuccess, "Your account has been successfully created. "
                  +:+ "Please log in now.")] ∧
    ext w' = e6 ∧ session w' = session w.
Proof.
  intros Hget%objects_get_eq Henabled Henable Hprofile Htpl Hemails Hhost
    -> Hsubject Hbody -> Hsend.
  eexists. split_and!.
  - unfold verify_email. apply try_except_inr. unfold verify_email_body.
    rewrite (bind_inr _ _ _ _ _ Hget). cbn [fst snd].
    erewrite bind_inr by reflexivity. cbn zeta beta.
    erewrite bind_inr by reflexivity.
    erewrite bind_inr by (apply call_eq; exact Henabled). cbv iota.
    erewrite bind_inr by reflexivity.
    erewrite bind_inr by (apply call_eq; exact Henable).
    erewrite bind_inr by (apply call_eq; exact Hprofile).
    erewrite bind_inr
      by (unfold EmailTemplate_objects_get; world_simpl; by rewrite Htpl).
    erewrite bind_inr by (unfold lift; by rewrite Hemails).
    erewrite bind_inr by (unfold lift; by rewrite Hhost).
    cbn zeta beta.
    erewrite bind_inr by (apply call_eq; exact Hsubject).
    erewrite bind_inr by (apply call_eq; exact Hbody).
    erewrite bind_inr by (apply call_eq; exact Hsend).
    reflexivity.
  - done.
  - done.
  - world_simpl. done.
  - done.
  - done.
  - done.
  - done.
Qed.

(** *** What the steps after the lookup leave alone *)

Lemma keeps_ret {A} (x : A) : keeps_verifications (ret (E:=E) x).
Proof. by intros w. Qed.

Lemma keeps_lift {A} (r : Result A) : keeps_verifications (lift (E:=E) r).
Proof. by intros w. Qed.

Lemma keeps_call {A} ev (f : E → Result A * E) : keeps_verifications (call ev f).
Proof. intros w. unfold call. by destruct (f (ext w)). Qed.

Lemma keeps_logger_debug m : keeps_verifications (logger_debug (E:=E) m).
Proof. by intros w. Qed.

Lemma keeps_logger_exception m : keeps_verifications (logger_exception (E:=E) m).
Proof. by intros w. Qed.

Lemma keeps_messages_success m : keeps_verifications (messages_success (E:=E) m).
Proof. by intros w. Qed.

Lemma keeps_messages_error m : keeps_verifications (messages_error (E:=E) m).
Proof. by intros w. Qed.

Lemma keeps_EmailTemplate_objects_get pk :
  keeps_verifications (EmailTemplate_objects_get (E:=E) pk).
Proof.
  intros w. unfold EmailTemplate_objects_get. by destruct (templates w !! pk).
Qed.

Lemma keeps_bind {A B} (m : M E A) (k : A → M E B) :
  keeps_verifications m → (∀ x, keeps_verifications (k x)) →
  keeps_verifications (bind m k).
Proof.
  intros Hm Hk w. unfold bind. specialize (Hm w).
  destruct (m w) as [[e|x] w1]; simpl in *; [done|].
  by rewrite Hk.
Qed.

Lemma keeps_if {A} (b : bool) (m1 m2 : M E A) :
  keeps_verifications m1 → keeps_verifications m2 →
  keeps_verifications (if b then m1 else m2).
Proof. by destruct b. Qed.

Lemma keeps_try_except {A} (body : M E A) handler :
  keeps_verifications body → (∀ e, keeps_verifications (handler e)) →
  keeps_verifications (try_except body handler).
Proof.
  intros Hm Hk w. unfold try_except. specialize (Hm w).
  destruct (body w) as [[e|x] w1]; simpl in *; [|done].
  by rewrite Hk.
Qed.

Create HintDb frame discriminated.
#[local] Hint Resolve keeps_ret keeps_lift keeps_call keeps_logger_debug
  keeps_logger_exception keeps_messages_success keeps_messages_error
  keeps_EmailTemplate_objects_get keeps_bind keeps_if keeps_try_except : frame.

(** However [verify_email] ends once the record is found, by a response or
    through either handler, the table differs from the one it started with
    in the verified flag of that record only. *)
Lemma verify_email_found_marks_verified request code w k r :
  (EmailVerification_objects_get code w).1 = inr (k, r) →
  verifications (verify_email settings request code w).2 =
    <[k := mkEmailVerification (username r) (verification_code r) true]>
      (verifications w).
Proof.
  intros Hget%objects_get_eq.
  unfold verify_email, try_except, verify_email_body.
  rewrite (bind_inr _ _ _ _ _ Hget). cbn [fst snd].
  erewrite bind_inr by reflexivity. cbn zeta beta.
  match goal with
  | |- context [bind (logger_debug ?m) ?k ?w2] =>
      assert (keeps_verifications (bind (logger_debug m) k)) as Hrest;
      [|specialize (Hrest w2); destruct (bind (logger_debug m) k w2) as [[e|x] w3]]
  end.
  - unfold render_template. auto 20 with frame.
  - simpl in Hrest. destruct (is_ObjectDoesNotExist e); simpl; by rewrite Hrest.
  - simpl in *. by rewrite Hrest.
Qed.

(** X4.  A second visit of the link finds the record again, verified: it goes
    past the lookup and on to the query of the enabled state. *)
Lemma verify_email_retry_finds_record request code w k r :
  (EmailVerification_objects_get code w).1 = inr (k, r) →
  (EmailVerification_objects_get code
     (verify_email settings request code w).2).1 =
    inr (k, mkEmailVerification (username r) (verification_code r) true).
Proof.
  intros Hget.
  pose proof (verify_email_found_marks_verified request code w k r Hget) as Htable.
  apply objects_get_eq in Hget.
  assert (rows_with_code code (verifications w) = [(k, r)]) as Hrows.
  { unfold EmailVerification_objects_get in Hget.
    destruct (rows_with_code code (verifications w)) as [|p [|q l]];
      by simplify_eq. }
  apply objects_get_found in Hget as (_ & Hk & Hcode).
  set (w1 := (verify_email settings request code w).2) in *.
  rewrite (objects_get_unique code w1 k
             (mkEmailVerification (username r) (verification_code r) true));
    [done| | |].
  - rewrite Htable. apply lookup_insert_eq.
  - done.
  - intros k' r' Hk' Hcode'. rewrite Htable in Hk'.
    destruct (decide (k' = k)) as [|Hne]; [done|].
    rewrite lookup_insert_ne in Hk' by done.
    assert ((k', r') ∈ rows_with_code code (verifications w)) as Hin
      by (by apply elem_of_rows_with_code).
    rewrite Hrows in Hin. apply list_elem_of_singleton in Hin. congruence.
Qed.

(** *** Failures after the lookup *)

(** A failure of the steps after the lookup that is not an
    [ObjectDoesNotExist] is logged and answered with the message to try the
    link again later. *)
Lemma verify_email_failure_retry_later request code w e w1 :
  verify_email_body settings request code w = (inl e, w1) →
  is_ObjectDoesNotExist e = false →
  verify_email settings request code w =
    (inr (Redirect (reverse "django_airavata_auth:create_account" [])),
     add_message MError
       ("Email verification failed. Please try clicking the email "
        +:+ "verification link again later.")
       (add_log LException "Email verification processing failed!" w1)).
Proof.
  intros Hbody Hclass. unfold verify_email.
  rewrite (try_except_inl _ _ _ _ _ Hbody). by rewrite Hclass.
Qed.

(** C9. The record is found, the account is not enabled, [enable_user] and
    [get_user] succeed, and the "new-user-email" template is missing from
    the table: the lookup of the template raises [DoesNotExist], which the
    handler meant for the lookup of the record catches.  The view logs that
    the record does not exist, asks for the username to send another link
    and redirects to the resend-link page; the message to try again later is
    not given.  The record is stored as verified, the account has been
    enabled and no message to the administrators has been sent. *)
Theorem verify_email_missing_template request code w k r e1 e2 e3 user_profile :
  (EmailVerification_objects_get code w).1 = inr (k, r) →
  is_user_enabled (username r) (ext w) = (inr false, e1) →
  enable_user (username r) e1 = (inr tt, e2) →
  get_user (username r) e2 = (inr user_profile, e3) →
  templates w !! NEW_USER_EMAIL_TEMPLATE = None →
  ∃ w',
    verify_email settings request code w =
      (inr (Redirect (reverse "django_airavata_auth:resend_email_link" [])), w') ∧
    messages w' = messages w ++
      [(MError, "Email verification failed. Please enter your username and we "
                +:+ "will send you another email verification link.")] ∧
    log w' = log w ++
      [(LDebug, "Email address verified for " +:+ username r);
       (LDebug, "Enabling user " +:+ username r);
       (LException, "EmailVerification object doesn't exist for code " +:+ code)] ∧
    verifications w' =
      <[k := mkEmailVerification (username r) (verification_code r) true]>
        (verifications w) ∧
    trace w' = trace w ++
      [CallIsUserEnabled (username r); CallEnableUser (username r);
       CallGetUser (username r)] ∧
    ext w' = e3.
Proof.
  intros Hget%objects_get_eq Henabled Henable Hprofile Hnone.
  eexists. split_and!.
  - unfold verify_email. erewrite try_except_inl; cycle 1.
    { unfold verify_email_body.
      rewrite (bind_inr _ _ _ _ _ Hget). cbn [fst snd].
      erewrite bind_inr by reflexivity. cbn zeta beta.
      erewrite bind_inr by reflexivity.
      erewrite bind_inr by (apply call_eq; exact Henabled). cbv iota.
      erewrite bind_inr by reflexivity.
      erewrite bind_inr by (apply call_eq; exact Henable).
      erewrite bind_inr by (apply call_eq; exact Hprofile).
      erewrite bind_inl; [reflexivity|].
      unfold EmailTemplate_objects_get. world_simpl. rewrite Hnone. reflexivity. }
    reflexivity.
  - done.
  - world_simpl. done.
  - done.
  - world_simpl. done.
  - done.
Qed.

(** *** Validation of the identity-provider alias *)

Lemma idp_aliases_elem exts l a :
  idp_aliases exts = inr l →
  a ∈ l ↔ ∃ ext, ext ∈ exts ∧ ext !! "idp_alias" = Some a.
Proof.
  revert l. induction exts as [|ext exts IH]; intros l; simpl.
  - intros [= <-]. split; [by intros ?%not_elem_of_nil|].
    by intros (? & ?%not_elem_of_nil & _).
  - unfold getitem. destruct (ext !! "idp_alias") as [b|] eqn:Hb; [|done].
    destruct (idp_aliases exts) as [|l'] eqn:Hl'; [done|].
    intros [= <-]. rewrite elem_of_cons, (IH l' eq_refl). clear IH.
    split.
    + intros [->|(x & Hx & Ha)];
        [exists ext; split; [apply list_elem_of_here|done]|].
      exists x. split; [by apply list_elem_of_further|done].
    + intros (x & [->|Hx]%elem_of_cons & Ha); [left; congruence|].
      right. eauto.
Qed.

(** Validation reads the settings only: it leaves the world alone, and it
    passes exactly when the external options are well formed and one of them
    has the alias. *)
Lemma _validate_idp_alias_passes idp_alias w w' :
  _validate_idp_alias settings idp_alias w = (inr tt, w') →
  w' = w ∧
  ∃ exts l,
    opt_external (AUTHENTICATION_OPTIONS settings) = Some exts ∧
    idp_aliases exts = inr l ∧ idp_alias ∈ l.
Proof.
  unfold _validate_idp_alias, bind, lift, external_options, ret, raise.
  destruct (opt_external (AUTHENTICATION_OPTIONS settings)) as [exts|]; [|done].
  destruct (idp_aliases exts) as [|l] eqn:Hl; [done|].
  case_decide; [|done]. intros [= <-]. eauto 10.
Qed.

Lemma _validate_idp_alias_rejects idp_alias w :
  (∀ exts ext,
     opt_external (AUTHENTICATION_OPTIONS settings) = Some exts →
     ext ∈ exts → ext !! "idp_alias" ≠ Some idp_alias) →
  ∃ e, _validate_idp_alias settings idp_alias w = (inl e, w).
Proof.
  intros Hnot.
  unfold _validate_idp_alias, bind, lift, external_options, ret, raise.
  destruct (opt_external (AUTHENTICATION_OPTIONS settings)) as [exts|]; [|eauto].
  destruct (idp_aliases exts) as [|l] eqn:Hl; [eauto|].
  case_decide as Hin; [|eauto].
  apply (idp_aliases_elem _ _ _ Hl) in Hin as (ext & Hext & Ha).
  by destruct (Hnot exts ext eq_refl Hext).
Qed.

(** C4. An alias that no configured external provider has: [redirect_login]
    raises and returns no response, hence no redirect to an authorization
    URL; the OAuth2 client is not called, and the session, like the rest of
    the world, is what it was. *)
Theorem redirect_login_unknown_alias request idp_alias w :
  (∀ exts ext,
     opt_external (AUTHENTICATION_OPTIONS settings) = Some exts →
     ext ∈ exts → ext !! "idp_alias" ≠ Some idp_alias) →
  ∃ e w',
    redirect_login settings request idp_alias w = (inl e, w') ∧
    w' = w ∧
    trace w' = trace w ∧
    session w' !! "OAUTH2_STATE" = session w !! "OAUTH2_STATE" ∧
    session w' !! "OAUTH2_REDIRECT_URI" = session w !! "OAUTH2_REDIRECT_URI".
Proof.
  intros Hnot.
  destruct (_validate_idp_alias_rejects idp_alias w Hnot) as [e He].
  exists e, w. unfold redirect_login, bind. rewrite He. done.
Qed.

(** *** The error page of the OAuth2 callback *)

Lemma filter_external_filter idp_alias exts acc l :
  idp_aliases exts = inr l →
  filter_external idp_alias exts acc =
    inr (acc ++ filter (λ ext, ext !! "idp_alias" = Some idp_alias) exts).
Proof.
  revert acc l. induction exts as [|ext exts IH]; intros acc l; simpl.
  - intros _. by rewrite app_nil_r.
  - unfold getitem. destruct (ext !! "idp_alias") as [b|] eqn:Hb; [|done].
    destruct (idp_aliases exts) as [|l'] eqn:Hl'; [done|]. intros _.
    rewrite filter_cons. case_decide as Hd; subst.
    + rewrite decide_True by done. rewrite (IH _ l' eq_refl).
      by rewrite <- app_assoc.
    + rewrite decide_False by congruence. by rewrite (IH _ l' eq_refl).
Qed.

(** C10. The OAuth2 callback fails and the request carries a valid alias:
    [callback] redirects to the error page of that alias, and that page,
    [callback_error], is rendered with the options object that holds
    exactly the configured external entries of that alias.  An entry of
    another provider is never among them, so the options differ from the
    configured list as soon as another provider is configured. *)
Theorem callback_failure_error_page request idp_alias w e w1 :
  callback_body settings request w = (inl e, w1) →
  GET request !! "idp_alias" = Some idp_alias →
  (_validate_idp_alias settings idp_alias w).1 = inr tt →
  ∃ w2 exts shown,
    callback settings request w =
      (inr (Redirect (reverse "django_airavata_auth:callback-error" [Some idp_alias])),
       w2) ∧
    opt_external (AUTHENTICATION_OPTIONS settings) = Some exts ∧
    shown = filter (λ ext, ext !! "idp_alias" = Some idp_alias) exts ∧
    (∀ request' w',
       callback_error settings request' idp_alias w' =
         (inr (Render "django_airavata_auth/callback-error.html"
                 [("idp_alias", VStr idp_alias);
                  ("options", VOptions (mkAuthenticationOptions None (Some shown)))]),
          w')) ∧
    (∀ ext, ext ∈ shown ↔ ext ∈ exts ∧ ext !! "idp_alias" = Some idp_alias) ∧
    (∀ ext, ext ∈ exts → ext !! "idp_alias" ≠ Some idp_alias → shown ≠ exts).
Proof.
  intros Hfail Halias Hvalid.
  destruct (_validate_idp_alias settings idp_alias w) as [[?|[]] w0] eqn:Hv;
    [done|]. clear Hvalid.
  apply _validate_idp_alias_passes in Hv as (-> & exts & l & Hexts & Hl & Hin).
  eexists _, exts, _. split_and!.
  - unfold callback, try_except. rewrite Hfail. simpl. rewrite Halias. done.
  - done.
  - done.
  - intros request' w'.
    unfold callback_error, _validate_idp_alias, bind, lift, external_options, ret.
    rewrite Hexts, Hl. rewrite decide_True by done.
    by rewrite (filter_external_filter _ _ _ l Hl).
  - intros ext. rewrite list_elem_of_filter. tauto.
  - intros ext Hext Hother Heq. rewrite <- Heq in Hext.
    apply list_elem_of_filter in Hext as [? _]. done.
Qed.


(** *** Registration *)

Lemma lift_getitem (d : Dict) key v w :
  d !! key = Some v → lift (getitem d key) w = (inr v, w).
Proof. unfold lift, getitem. by intros ->. Qed.

Lemma is_valid_bound cls data w cleaned errors e1 :
  full_clean cls data (ext w) = (inr (cleaned, errors), e1) →
  is_valid (mkForm cls (Some data) ∅ []) w =
    (inr (bool_decide (errors = []), mkForm cls (Some data) cleaned errors),
     after_call (CallIsValid cls data) e1 w).
Proof.
  intros Hclean. unfold is_valid. cbn [form_data form_class].
  by rewrite (bind_inr _ _ _ _ _ (call_eq _ _ _ _ _ Hclean)).
Qed.

(** What [_create_and_send_email_verification_link] has done when it
    returns: one row inserted under an unused key, with the given username,
    a code that no stored row had and the flag unset; the subject and the
    body of the "verify-email" template rendered; one message sent to the
    user. *)
Lemma create_and_send_link_returns request u email first last w w' :
  _create_and_send_email_verification_link settings request u email first last w
    = (inr tt, w') →
  ∃ k code template subject' body',
    let verification_uri :=
      build_absolute_uri request
        (Some (reverse "django_airavata_auth:verify_email" [Some code])) in
    let context := dict [
      ("username", u);
      ("email", email);
      ("first_name", first);
      ("last_name", last);
      ("portal_title", PORTAL_TITLE settings);
      ("url", verification_uri)
    ] in
    let msg :=
      mkEmailMessage subject' body'
        (PORTAL_TITLE settings +:+ " <" +:+ SERVER_EMAIL settings +:+ ">")
        [first +:+ " " +:+ last +:+ " <" +:+ email +:+ ">"] "html" in
    (uuid4 (ext w)).1 = code ∧
    verifications w !! k = None ∧
    (∀ k' r', verifications w !! k' = Some r' → verification_code r' ≠ code) ∧
    verifications w' = <[k := mkEmailVerification u code false]> (verifications w) ∧
    templates w !! VERIFY_EMAIL_TEMPLATE = Some template ∧
    trace w' = trace w ++
      [CallTemplateRender (subject template) context;
       CallTemplateRender (body template) context;
       CallSend msg] ∧
    messages w' = messages w ∧ session w' = session w.
Proof.
  intros Hrun. unfold _create_and_send_email_verification_link in Hrun.
  bind_inv Hrun row w1 Hnew. unfold EmailVerification_new in Hnew.
  destruct (uuid4 (ext w)) as [code e1] eqn:Huuid. injection Hnew as <- <-.
  bind_inv Hrun k w2 Hsave. unfold EmailVerification_save in Hsave.
  simpl in Hsave.
  destruct (rows_with_code code (verifications w)) as [|p l] eqn:Hrows; [|done].
  injection Hsave as <- <-. simpl in Hrun.
  bind_inv Hrun u1 w3 Hlog. injection Hlog as <- <-.
  bind_inv Hrun template w4 Htpl.
  unfold EmailTemplate_objects_get in Htpl. simpl in Htpl.
  destruct (templates w !! VERIFY_EMAIL_TEMPLATE) as [t'|] eqn:Ht; [|done].
  injection Htpl as <- <-.
  bind_inv Hrun subject' w5 Hen. call_inv Hen e2.
  bind_inv Hrun body' w6 Hen. call_inv Hen e3.
  call_inv Hrun e4.
  eexists (fresh (dom (verifications w))), code, t', subject', body'.
  cbn zeta. split_and!; try done; world_simpl; try done.
  - apply not_elem_of_dom, is_fresh.
  - by apply rows_with_code_nil.
Qed.

(** The same function run forwards: with a new code, the template in the
    table, and rendering and sending that succeed, it returns. *)
Lemma create_and_send_link_runs request u email first last w code e1 e2 e3 e4
    template context subject' body' msg :
  uuid4 (ext w) = (code, e1) →
  (∀ k r, verifications w !! k = Some r → verification_code r ≠ code) →
  templates w !! VERIFY_EMAIL_TEMPLATE = Some template →
  context = dict [
    ("username", u);
    ("email", email);
    ("first_name", first);
    ("last_name", last);
    ("portal_title", PORTAL_TITLE settings);
    ("url", build_absolute_uri request
              (Some (reverse "django_airavata_auth:verify_email" [Some code])))
  ] →
  Template_render (subject template) context e1 = (inr subject', e2) →
  Template_render (body template) context e2 = (inr body', e3) →
  msg = mkEmailMessage subject' body'
          (PORTAL_TITLE settings +:+ " <" +:+ SERVER_EMAIL settings +:+ ">")
          [first +:+ " " +:+ last +:+ " <" +:+ email +:+ ">"] "html" →
  send msg e3 = (inr tt, e4) →
  ∃ w',
    _create_and_send_email_verification_link settings request u email first last w
      = (inr tt, w') ∧
    verifications w' =
      <[fresh (dom (verifications w)) := mkEmailVerification u code false]>
        (verifications w) ∧
    trace w' = trace w ++
      [CallTemplateRender (subject template) context;
       CallTemplateRender (body template) context;
       CallSend msg] ∧
    messages w' = messages w ∧ session w' = session w ∧
    templates w' = templates w ∧ ext w' = e4.
Proof.
  intros Huuid Hfresh%rows_with_code_nil Htpl -> Hsubject Hbody -> Hsend.
  eexists. split_and!.
  - unfold _create_and_send_email_verification_link.
    erewrite bind_inr by (unfold EmailVerification_new; by rewrite Huuid).
    erewrite bind_inr
      by (unfold EmailVerification_save; world_simpl;
          cbn [verification_code]; by rewrite Hfresh).
    cbn zeta beta.
    erewrite bind_inr by reflexivity.
    erewrite bind_inr
      by (unfold EmailTemplate_objects_get; world_simpl; by rewrite Htpl).
    cbn zeta beta. cbn [verification_code].
    erewrite bind_inr by (apply call_eq; exact Hsubject).
    erewrite bind_inr by (apply call_eq; exact Hbody).
    apply call_eq. exact Hsend.
  - done.
  - world_simpl. done.
  - done.
  - done.
  - done.
  - done.
Qed.

(** Runs [create_account_body] up to the answer of [register_user]. *)
Ltac run_registration Hu Hemail Hfirst Hlast Hpw Hreg :=
  unfold create_account_body; cbn [cleaned_data];
  rewrite (bind_inr _ _ _ _ _ (lift_getitem _ _ _ _ Hu));
  rewrite (bind_inr _ _ _ _ _ (lift_getitem _ _ _ _ Hemail));
  rewrite (bind_inr _ _ _ _ _ (lift_getitem _ _ _ _ Hfirst));
  rewrite (bind_inr _ _ _ _ _ (lift_getitem _ _ _ _ Hlast));
  rewrite (bind_inr _ _ _ _ _ (lift_getitem _ _ _ _ Hpw));
  erewrite bind_inr by (apply call_eq; exact Hreg); cbn [negb].

(** C5, amended.  The IAM client reports that the user was created, and the
    steps that follow succeed ([uuid4] gives a code that no stored record
    has, the "verify-email" template is in the table, rendering and sending
    succeed): exactly one record is inserted, for that username, unverified,
    and no other record of the table has its code; the subject and the body
    of the template are rendered with the context of the six keys username,
    email, first_name, last_name, portal_title and url, the last one holding
    the verification URL; exactly one message is sent, to the address of the
    new user. *)
Theorem create_account_sends_verification_link request w cleaned
    e1 e2 e3 e4 e5 e6 u email first last password
    code template context subject' body' msg :
  method request = "POST" →
  full_clean CreateAccountForm (POST request) (ext w) = (inr (cleaned, []), e1) →
  cleaned !! "username" = Some u →
  cleaned !! "email" = Some email →
  cleaned !! "first_name" = Some first →
  cleaned !! "last_name" = Some last →
  cleaned !! "password" = Some password →
  register_user u email first last password e1 = (inr true, e2) →
  uuid4 e2 = (code, e3) →
  (∀ k r, verifications w !! k = Some r → verification_code r ≠ code) →
  templates w !! VERIFY_EMAIL_TEMPLATE = Some template →
  context = dict [
    ("username", u);
    ("email", email);
    ("first_name", first);
    ("last_name", last);
    ("portal_title", PORTAL_TITLE settings);
    ("url", build_absolute_uri request
              (Some (reverse "django_airavata_auth:verify_email" [Some code])))
  ] →
  Template_render (subject template) context e3 = (inr subject', e4) →
  Template_render (body template) context e4 = (inr body', e5) →
  msg = mkEmailMessage subject' body'
          (PORTAL_TITLE settings +:+ " <" +:+ SERVER_EMAIL settings +:+ ">")
          [first +:+ " " +:+ last +:+ " <" +:+ email +:+ ">"] "html" →
  send msg e5 = (inr tt, e6) →
  ∃ w' k,
    create_account settings request w =
      (inr (Redirect (reverse "django_airavata_auth:create_account" [])), w') ∧
    verifications w !! k = None ∧
    verifications w' = <[k := mkEmailVerification u code false]> (verifications w) ∧
    (∀ k' r', verifications w' !! k' = Some r' → verification_code r' = code → k' = k) ∧
    dom context =
      {[ "username"; "email"; "first_name"; "last_name"; "portal_title"; "url" ]} ∧
    trace w' = trace w ++
      [CallIsValid CreateAccountForm (POST request);
       CallRegisterUser u email first last password;
       CallTemplateRender (subject template) context;
       CallTemplateRender (body template) context;
       CallSend msg] ∧
    to msg = [first +:+ " " +:+ last +:+ " <" +:+ email +:+ ">"].
Proof.
  intros Hpost Hclean Hu Hemail Hfirst Hlast Hpw Hreg Huuid Hfresh Htpl
    Hctx Hsubject Hbody Hmsg Hsend.
  destruct (create_and_send_link_runs request u email first last
              (after_call (CallRegisterUser u email first last password) e2
                 (after_call (CallIsValid CreateAccountForm (POST request)) e1 w))
              code e3 e4 e5 e6 template context subject' body' msg)
    as (w3 & Hlink & Hrows & Htrace & _); try done.
  subst context msg.
  eexists _, (fresh (dom (verifications w))). split_and!.
  - unfold create_account. rewrite decide_True by done.
    erewrite bind_inr; cycle 1.
    rewrite (bind_inr _ _ _ _ _ (is_valid_bound _ _ _ _ _ _ Hclean)).
    cbn [fst snd]. rewrite bool_decide_eq_true_2 by done.
    apply try_except_inr.
    run_registration Hu Hemail Hfirst Hlast Hpw Hreg.
    rewrite (bind_inr _ _ _ _ _ Hlink). reflexivity.
    reflexivity.
  - apply not_elem_of_dom, is_fresh.
  - world_simpl. exact Hrows.
  - world_simpl. rewrite Hrows. world_simpl. intros k' r' Hk' Hcode.
    destruct (decide (k' = fresh (dom (verifications w)))) as [|Hne]; [done|].
    rewrite lookup_insert_ne in Hk' by done. by destruct (Hfresh k' r').
  - done.
  - world_simpl. rewrite Htrace. world_simpl. done.
  - done.
Qed.

(** C6. The IAM client reports that the user was not created: the view
    renders the form again with the single error "Failed to register user
    with IAM service"; the table is what it was, and after [register_user]
    no collaborator is called, so nothing is rendered or sent. *)
Theorem create_account_registration_refused request w cleaned e1 e2
    u email first last password :
  method request = "POST" →
  full_clean CreateAccountForm (POST request) (ext w) = (inr (cleaned, []), e1) →
  cleaned !! "username" = Some u →
  cleaned !! "email" = Some email →
  cleaned !! "first_name" = Some first →
  cleaned !! "last_name" = Some last →
  cleaned !! "password" = Some password →
  register_user u email first last password e1 = (inr false, e2) →
  ∃ w' form,
    create_account settings request w =
      (inr (Render "django_airavata_auth/create_account.html"
              [("options", VOptions (AUTHENTICATION_OPTIONS settings));
               ("form", VForm form)]), w') ∧
    form_errors form =
      [(None, "Failed to register user" +:+ " with IAM service")] ∧
    verifications w' = verifications w ∧
    trace w' = trace w ++
      [CallIsValid CreateAccountForm (POST request);
       CallRegisterUser u email first last password] ∧
    messages w' = messages w ∧
    ext w' = e2.
Proof.
  intros Hpost Hclean Hu Hemail Hfirst Hlast Hpw Hreg.
  eexists _, _. split_and!.
  - unfold create_account. rewrite decide_True by done.
    erewrite bind_inr; cycle 1.
    rewrite (bind_inr _ _ _ _ _ (is_valid_bound _ _ _ _ _ _ Hclean)).
    cbn [fst snd]. rewrite bool_decide_eq_true_2 by done.
    apply try_except_inr.
    run_registration Hu Hemail Hfirst Hlast Hpw Hreg.
    reflexivity. reflexivity.
  - done.
  - done.
  - world_simpl. done.
  - done.
  - done.
Qed.

(** C7. The user was created and a later step raises an exception that has
    no [message] attribute: the handler logs the failure and then reads
    [e.message], which raises [AttributeError]; the view raises instead of
    answering, so no failure message reaches the caller.  The handler of
    [resend_email_link] reads [str(e)] at this point. *)
Theorem create_account_failure_escapes request w cleaned e1 e2
    u email first last password e w3 :
  method request = "POST" →
  full_clean CreateAccountForm (POST request) (ext w) = (inr (cleaned, []), e1) →
  cleaned !! "username" = Some u →
  cleaned !! "email" = Some email →
  cleaned !! "first_name" = Some first →
  cleaned !! "last_name" = Some last →
  cleaned !! "password" = Some password →
  register_user u email first last password e1 = (inr true, e2) →
  _create_and_send_email_verification_link settings request u email first last
    (after_call (CallRegisterUser u email first last password) e2
       (after_call (CallIsValid CreateAccountForm (POST request)) e1 w))
    = (inl e, w3) →
  exn_message e = None →
  ∃ e',
    create_account settings request w =
      (inl e', add_log LException "Failed to create account for user" w3) ∧
    exn_class e' = AttributeError.
Proof.
  intros Hpost Hclean Hu Hemail Hfirst Hlast Hpw Hreg Hlink Hnomsg.
  eexists. split.
  - unfold create_account. rewrite decide_True by done.
    erewrite bind_inl; [reflexivity|].
    rewrite (bind_inr _ _ _ _ _ (is_valid_bound _ _ _ _ _ _ Hclean)).
    cbn [fst snd]. rewrite bool_decide_eq_true_2 by done.
    erewrite try_except_inl; cycle 1.
    { run_registration Hu Hemail Hfirst Hlast Hpw Hreg.
      rewrite (bind_inl _ _ _ _ _ Hlink). reflexivity. }
    unfold getattr_message. rewrite Hnomsg. reflexivity.
  - done.
Qed.

(** *** Resending the link *)

(** C8. The IAM client reports that the user does not exist: the view
    gives one error message and redirects to the resend-link page; the table
    is what it was, and after [is_user_exist] no collaborator is called, so
    no record is created and nothing is sent. *)
Theorem resend_email_link_unknown_user request w cleaned e1 e2 u :
  method request = "POST" →
  full_clean ResendEmailVerificationLinkForm (POST request) (ext w)
    = (inr (cleaned, []), e1) →
  cleaned !! "username" = Some u →
  is_user_exist u e1 = (inr false, e2) →
  ∃ w',
    resend_email_link settings request w =
      (inr (Redirect (reverse "django_airavata_auth:resend_email_link" [])), w') ∧
    messages w' = messages w ++
      [(MError, "Unable to resend email verification link. Please "
                +:+ "contact the website administrator for further "
                +:+ "assistance.")] ∧
    verifications w' = verifications w ∧
    trace w' = trace w ++
      [CallIsValid ResendEmailVerificationLinkForm (POST request);
       CallIsUserExist u] ∧
    templates w' = templates w ∧ session w' = session w ∧ ext w' = e2.
Proof.
  intros Hpost Hclean Hu Hexist.
  eexists. split_and!.
  - unfold resend_email_link. rewrite decide_True by done.
    erewrite bind_inr; cycle 1.
    rewrite (bind_inr _ _ _ _ _ (is_valid_bound _ _ _ _ _ _ Hclean)).
    cbn [fst snd]. rewrite bool_decide_eq_true_2 by done.
    apply try_except_inr.
    unfold resend_email_link_body. cbn [cleaned_data].
    rewrite (bind_inr _ _ _ _ _ (lift_getitem _ _ _ _ Hu)).
    erewrite bind_inr by (apply call_eq; exact Hexist).
    reflexivity. reflexivity.
  - done.
  - done.
  - world_simpl. done.
  - done.
  - done.
  - done.
Qed.

(** *** Conditions that compose *)

Lemma keeps_raise {A} e : keeps_verifications (raise (E:=E) (A:=A) e).
Proof. by intros w. Qed.

Lemma keeps_session_setitem key value :
  keeps_verifications (session_setitem (E:=E) key value).
Proof. by intros w. Qed.

Lemma keeps_getattr_message e : keeps_verifications (getattr_message (E:=E) e).
Proof. intros w. unfold getattr_message. by destruct (exn_message e). Qed.

Lemma keeps_is_valid form : keeps_verifications (is_valid (E:=E) form).
Proof.
  unfold is_valid. destruct (form_data form); [|apply keeps_ret].
  apply keeps_bind; [apply keeps_call|intros ?; apply keeps_ret].
Qed.

Lemma keeps_objects_get code :
  keeps_verifications (EmailVerification_objects_get (E:=E) code).
Proof. intros w. by rewrite objects_get_world. Qed.

#[local] Hint Resolve keeps_raise keeps_session_setitem keeps_getattr_message
  keeps_is_valid keeps_objects_get : frame.

Lemma calls_only_ret {A} P (x : A) : calls_only P (ret (E:=E) x).
Proof. intros w. exists []. by rewrite app_nil_r. Qed.

Lemma calls_only_raise {A} P e : calls_only P (raise (E:=E) (A:=A) e).
Proof. intros w. exists []. by rewrite app_nil_r. Qed.

Lemma calls_only_lift {A} P (r : Result A) : calls_only P (lift (E:=E) r).
Proof. intros w. exists []. by rewrite app_nil_r. Qed.

Lemma calls_only_call {A} (P : Event → Prop) ev (f : E → Result A * E) :
  P ev → calls_only P (call ev f).
Proof.
  intros Hev w. exists [ev]. unfold call. destruct (f (ext w)).
  split; [done|]. by apply Forall_singleton.
Qed.

Lemma calls_only_logger_debug P m : calls_only P (logger_debug (E:=E) m).
Proof. intros w. exists []. by rewrite app_nil_r. Qed.

Lemma calls_only_logger_exception P m : calls_only P (logger_exception (E:=E) m).
Proof. intros w. exists []. by rewrite app_nil_r. Qed.

Lemma calls_only_messages_success P m : calls_only P (messages_success (E:=E) m).
Proof. intros w. exists []. by rewrite app_nil_r. Qed.

Lemma calls_only_messages_error P m : calls_only P (messages_error (E:=E) m).
Proof. intros w. exists []. by rewrite app_nil_r. Qed.

Lemma calls_only_getattr_message P e : calls_only P (getattr_message (E:=E) e).
Proof.
  unfold getattr_message.
  destruct (exn_message e); [apply calls_only_ret|apply calls_only_raise].
Qed.

Lemma calls_only_objects_get P code :
  calls_only P (EmailVerification_objects_get (E:=E) code).
Proof. intros w. exists []. by rewrite objects_get_world, app_nil_r. Qed.

Lemma calls_only_save P pk row : calls_only P (EmailVerification_save (E:=E) pk row).
Proof.
  intros w. exists []. rewrite app_nil_r. unfold EmailVerification_save.
  destruct pk; [done|].
  by destruct (rows_with_code (verification_code row) (verifications w)).
Qed.

Lemma calls_only_new P u : calls_only P (EmailVerification_new (E:=E) u).
Proof.
  intros w. exists []. rewrite app_nil_r. unfold EmailVerification_new.
  by destruct (uuid4 (ext w)).
Qed.

Lemma calls_only_template_get P pk :
  calls_only P (EmailTemplate_objects_get (E:=E) pk).
Proof.
  intros w. exists []. rewrite app_nil_r. unfold EmailTemplate_objects_get.
  by destruct (templates w !! pk).
Qed.

Lemma calls_only_bind {A B} P (m : M E A) (k : A → M E B) :
  calls_only P m → (∀ x, calls_only P (k x)) → calls_only P (bind m k).
Proof.
  intros Hm Hk w. unfold bind. destruct (Hm w) as (evs1 & Ht1 & HP1).
  destruct (m w) as [[e|x] w1]; simpl in *; [eauto|].
  destruct (Hk x w1) as (evs2 & Ht2 & HP2).
  exists (evs1 ++ evs2). rewrite Ht2, Ht1, app_assoc.
  split; [done|]. by apply Forall_app.
Qed.

Lemma calls_only_try_except {A} P (body : M E A) handler :
  calls_only P body → (∀ e, calls_only P (handler e)) →
  calls_only P (try_except body handler).
Proof.
  intros Hm Hk w. unfold try_except. destruct (Hm w) as (evs1 & Ht1 & HP1).
  destruct (body w) as [[e|x] w1]; simpl in *; [|eauto].
  destruct (Hk e w1) as (evs2 & Ht2 & HP2).
  exists (evs1 ++ evs2). rewrite Ht2, Ht1, app_assoc.
  split; [done|]. by apply Forall_app.
Qed.

Lemma calls_only_if {A} P (b : bool) (m1 m2 : M E A) :
  calls_only P m1 → calls_only P m2 → calls_only P (if b then m1 else m2).
Proof. by destruct b. Qed.

Lemma calls_only_mono {A} (P Q : Event → Prop) (m : M E A) :
  (∀ ev, P ev → Q ev) → calls_only P m → calls_only Q m.
Proof.
  intros HPQ Hm w. destruct (Hm w) as (evs & Ht & HP).
  exists evs. split; [done|]. by eapply Forall_impl.
Qed.

Create HintDb calls discriminated.
#[local] Hint Resolve calls_only_ret calls_only_raise calls_only_lift
  calls_only_logger_debug calls_only_logger_exception
  calls_only_messages_success calls_only_messages_error
  calls_only_getattr_message calls_only_objects_get calls_only_save
  calls_only_new calls_only_template_get calls_only_bind calls_only_try_except
  calls_only_if : calls.

(** *** What [verify_email] does on every path *)

(** The body of [verify_email] returns nothing but the redirect to the login
    page. *)
Lemma verify_email_body_returns request code w response w1 :
  verify_email_body settings request code w = (inr response, w1) →
  response = Redirect (reverse "django_airavata_auth:login" []).
Proof.
  intros Hbody. unfold verify_email_body in Hbody.
  bind_inv Hbody found w2 Hfound.
  bind_inv Hbody pk w3 Hsave.
  bind_inv Hbody u w4 Hlog.
  bind_inv Hbody enabled w5 Hen.
  destruct enabled.
  - bind_inv Hbody u1 w6 Hlog1. bind_inv Hbody u2 w7 Hmsg.
    by injection Hbody as <- _.
  - do 10 (let x := fresh "x" in let w' := fresh "w" in let H := fresh "H" in
           bind_inv Hbody x w' H).
    by injection Hbody as <- _.
Qed.

(** X1.  Whatever the code, the tables and the collaborators do, [verify_email]
    raises nothing: it answers with a redirect to the login page, to the
    resend-link page or to the registration page. *)
Theorem verify_email_always_redirects request code w :
  ∃ url w',
    verify_email settings request code w = (inr (Redirect url), w') ∧
    (url = reverse "django_airavata_auth:login" [] ∨
     url = reverse "django_airavata_auth:resend_email_link" [] ∨
     url = reverse "django_airavata_auth:create_account" []).
Proof.
  unfold verify_email, try_except.
  destruct (verify_email_body settings request code w) as [[e|response] w1]
    eqn:Hbody.
  - destruct (is_ObjectDoesNotExist e); eexists _, _; split; [done|auto|done|auto].
  - apply verify_email_body_returns in Hbody as ->. eauto 6.
Qed.

(** X2.  [verify_email] neither adds nor removes a record, and the most it does
    to a stored record is to set its verified flag. *)
Theorem verify_email_only_sets_flags request code w k :
  match verifications w !! k,
        verifications (verify_email settings request code w).2 !! k with
  | Some r, Some r' =>
      r' = r ∨ r' = mkEmailVerification (username r) (verification_code r) true
  | None, None => True
  | _, _ => False
  end.
Proof.
  destruct (EmailVerification_objects_get code w) as [[e|[k0 r0]] w0] eqn:Hget.
  - assert (verifications (verify_email settings request code w).2
            = verifications w) as ->.
    { pose proof (objects_get_world code w) as Hw. rewrite Hget in Hw.
      simpl in Hw. subst w0.
      unfold verify_email, try_except, verify_email_body.
      rewrite (bind_inl _ _ _ _ _ Hget).
      by destruct (is_ObjectDoesNotExist e). }
    destruct (verifications w !! k); auto.
  - rewrite (verify_email_found_marks_verified request code w k0 r0)
      by (by rewrite Hget).
    apply objects_get_found in Hget as (_ & Hk0 & _).
    destruct (decide (k = k0)) as [->|Hne].
    + rewrite lookup_insert_eq, Hk0. auto.
    + rewrite lookup_insert_ne by done. destruct (verifications w !! k); auto.
Qed.

(** X3.  On every path the calls of [verify_email] are calls to the three
    functions of the IAM client that it names, renderings, and messages
    addressed to the configured administrators: it registers nobody and
    writes to nobody else. *)
Theorem verify_email_calls request code :
  calls_only (verification_call settings) (verify_email settings request code).
Proof.
  unfold verify_email, verify_email_body, render_template.
  apply calls_only_try_except.
  - repeat first
      [ progress cbv zeta
      | apply calls_only_bind; [|intros ?]
      | apply calls_only_if
      | apply calls_only_call; done
      | solve [auto with calls] ].
  - intros e. destruct (is_ObjectDoesNotExist e); auto 10 with calls.
Qed.

(** *** The OAuth2 views on every path *)


(** X6.  One entry of the external options without an [idp_alias], or no
    external options at all: validation raises [KeyError] for every alias,
    those of the well-formed entries included, and so does
    [redirect_login]. *)
Theorem redirect_login_malformed_options request idp_alias w :
  match opt_external (AUTHENTICATION_OPTIONS settings) with
  | Some exts => ∃ ext, ext ∈ exts ∧ ext !! "idp_alias" = None
  | None => True
  end →
  ∃ e,
    redirect_login settings request idp_alias w = (inl e, w) ∧
    exn_class e = KeyError.
Proof.
  intros Hbad.
  unfold redirect_login, _validate_idp_alias, bind, lift, external_options.
  destruct (opt_external (AUTHENTICATION_OPTIONS settings)) as [exts|];
    [|eauto].
  destruct Hbad as (ext & Hin & Hnone).
  assert (∃ e, idp_aliases exts = inl e ∧ exn_class e = KeyError)
    as (e & -> & He); [|eauto].
  induction exts as [|ext' exts IH]; [by apply not_elem_of_nil in Hin|].
  simpl. unfold getitem.
  destruct (ext' !! "idp_alias") as [a|] eqn:Ha; [|eauto].
  apply elem_of_cons in Hin as [->|Hin]; [congruence|].
  destruct (IH Hin) as (e & -> & He). eauto.
Qed.

(** X7.  With a valid alias, [redirect_login] hands the OAuth2 client the
    callback URI, which carries the alias and the [next] of the query.  If
    the client returns, the view redirects to the authorization URL with the
    alias as the hint for the identity provider, and the session holds the
    state that the client returned and the very URI that it was given, its
    other entries unchanged.  If the client raises, the session is what it
    was. *)
Theorem redirect_login_stores_state request idp_alias w redirect_uri :
  (_validate_idp_alias settings idp_alias w).1 = inr tt →
  redirect_uri =
    match GET request !! "next" with
    | Some next =>
        (build_absolute_uri request
           (Some (reverse "django_airavata_auth:callback" []))
         +:+ "?idp_alias=" +:+ quote idp_alias)
        +:+ "&next=" +:+ quote next
    | None =>
        build_absolute_uri request
          (Some (reverse "django_airavata_auth:callback" []))
        +:+ "?idp_alias=" +:+ quote idp_alias
    end →
  match authorization_url (KEYCLOAK_CLIENT_ID settings) "openid" redirect_uri
          (KEYCLOAK_AUTHORIZE_URL settings) (ext w) with
  | (inr (url, state), e1) =>
      ∃ w',
        redirect_login settings request idp_alias w =
          (inr (Redirect (url +:+ "&kc_idp_hint=" +:+ quote idp_alias)), w') ∧
        session w' =
          <["OAUTH2_REDIRECT_URI" := redirect_uri]>
            (<["OAUTH2_STATE" := state]> (session w)) ∧
        trace w' = trace w ++
          [CallAuthorizationUrl (KEYCLOAK_CLIENT_ID settings) "openid"
             redirect_uri (KEYCLOAK_AUTHORIZE_URL settings)] ∧
        ext w' = e1
  | (inl e, e1) =>
      ∃ w',
        redirect_login settings request idp_alias w = (inl e, w') ∧
        session w' = session w
  end.
Proof.
  intros Hvalid ->.
  destruct (_validate_idp_alias settings idp_alias w) as [[?|[]] w0] eqn:Hv;
    [done|]. clear Hvalid.
  pose proof Hv as Hv'.
  apply _validate_idp_alias_passes in Hv' as (-> & _).
  unfold redirect_login. rewrite (bind_inr _ _ _ _ _ Hv). cbv zeta.
  destruct (GET request !! "next") as [next|];
    match goal with
    | |- context [authorization_url ?a ?b ?c ?d (ext w)] =>
        destruct (authorization_url a b c d (ext w)) as [[e|[url state]] e1]
          eqn:Hauth
    end.
  - rewrite (bind_inl _ _ _ _ _ (call_eq _ _ _ _ _ Hauth)). eauto.
  - rewrite (bind_inr _ _ _ _ _ (call_eq _ _ _ _ _ Hauth)).
    eexists. split_and!; [reflexivity|done|by world_simpl|done].
  - rewrite (bind_inl _ _ _ _ _ (call_eq _ _ _ _ _ Hauth)). eauto.
  - rewrite (bind_inr _ _ _ _ _ (call_eq _ _ _ _ _ Hauth)).
    eexists. split_and!; [reflexivity|done|by world_simpl|done].
Qed.

(** X8.  [callback_error] raises for an alias that no configured external
    provider has, and renders nothing. *)
Theorem callback_error_unknown_alias request idp_alias w :
  (∀ exts ext,
     opt_external (AUTHENTICATION_OPTIONS settings) = Some exts →
     ext ∈ exts → ext !! "idp_alias" ≠ Some idp_alias) →
  ∃ e, callback_error settings request idp_alias w = (inl e, w).
Proof.
  intros Hnot.
  destruct (_validate_idp_alias_rejects idp_alias w Hnot) as [e He].
  exists e. unfold callback_error. by rewrite (bind_inl _ _ _ _ _ He).
Qed.

(** X9.  When [callback_error] answers, it has left the world alone, and the
    options that it renders hold at least one entry, each a configured entry
    of the given alias, and no password option. *)
Theorem callback_error_shows_configured_entries request idp_alias w response w' :
  callback_error settings request idp_alias w = (inr response, w') →
  w' = w ∧
  ∃ shown,
    response =
      Render "django_airavata_auth/callback-error.html"
        [("idp_alias", VStr idp_alias);
         ("options", VOptions (mkAuthenticationOptions None (Some shown)))] ∧
    shown ≠ [] ∧
    ∀ ext, ext ∈ shown →
      ext !! "idp_alias" = Some idp_alias ∧
      ∃ exts, opt_external (AUTHENTICATION_OPTIONS settings) = Some exts ∧
              ext ∈ exts.
Proof.
  intros Hrun. unfold callback_error in Hrun.
  bind_inv Hrun u w1 Hvalid. destruct u.
  apply _validate_idp_alias_passes in Hvalid as (-> & exts & l & Hexts & Hl & Hin).
  unfold bind, lift, external_options in Hrun. rewrite Hexts in Hrun.
  rewrite (filter_external_filter _ _ _ l Hl) in Hrun. simpl in Hrun.
  injection Hrun as <- <-. split; [done|].
  eexists. split; [reflexivity|]. split.
  - apply (idp_aliases_elem _ _ _ Hl) in Hin as (ext & Hext & Ha).
    intros Hnil.
    assert (ext ∈ filter (λ ext, ext !! "idp_alias" = Some idp_alias) exts) as Hf
      by (by apply list_elem_of_filter).
    rewrite Hnil in Hf. by apply not_elem_of_nil in Hf.
  - intros ext [Ha Hext]%list_elem_of_filter. eauto.
Qed.

(** *** Registration and resending on every path *)

Lemma keeps_to_inserts {A} (m : M E A) :
  keeps_verifications m → inserts_at_most_one m.
Proof. intros Hm w. left. apply Hm. Qed.

Lemma inserts_bind_l {A B} (m : M E A) (k : A → M E B) :
  keeps_verifications m → (∀ x, inserts_at_most_one (k x)) →
  inserts_at_most_one (bind m k).
Proof.
  intros Hm Hk w. unfold bind. specialize (Hm w).
  destruct (m w) as [[e|x] w1]; simpl in *; [by left|].
  rewrite <- Hm. apply Hk.
Qed.

Lemma inserts_bind_r {A B} (m : M E A) (k : A → M E B) :
  inserts_at_most_one m → (∀ x, keeps_verifications (k x)) →
  inserts_at_most_one (bind m k).
Proof.
  intros Hm Hk w. unfold bind. specialize (Hm w).
  destruct (m w) as [[e|x] w1]; simpl in *; [done|].
  by rewrite Hk.
Qed.

Lemma inserts_try_except {A} (body : M E A) handler :
  inserts_at_most_one body → (∀ e, keeps_verifications (handler e)) →
  inserts_at_most_one (try_except body handler).
Proof.
  intros Hm Hk w. unfold try_except. specialize (Hm w).
  destruct (body w) as [[e|x] w1]; simpl in *; [|done].
  by rewrite Hk.
Qed.

(** The link function inserts at most one row, unverified, and makes only
    the calls of [link_call], whether it returns or raises. *)
Lemma create_and_send_link_inserts request u email first last :
  inserts_at_most_one
    (_create_and_send_email_verification_link settings request u email first last).
Proof.
  intros w. unfold _create_and_send_email_verification_link.
  unfold bind at 1. unfold EmailVerification_new at 1.
  destruct (uuid4 (ext w)) as [code e1].
  unfold bind at 1. unfold EmailVerification_save at 1. cbn [verification_code].
  destruct (rows_with_code code (verifications (set_ext e1 w))) as [|p l]
    eqn:Hrows; [|by left].
  right. exists (fresh (dom (verifications w))), (mkEmailVerification u code false).
  split_and!; [apply not_elem_of_dom, is_fresh|done|by apply rows_with_code_nil|].
  match goal with
  | |- verifications (?rest ?x ?w2).2 = _ =>
      assert (keeps_verifications (rest x)) as Hrest;
      [|by rewrite (Hrest w2)]
  end.
  unfold render_template. cbv beta zeta. auto 20 with frame.
Qed.

Lemma create_and_send_link_calls request u email first last :
  calls_only (link_call (first +:+ " " +:+ last +:+ " <" +:+ email +:+ ">"))
    (_create_and_send_email_verification_link settings request u email first last).
Proof.
  unfold _create_and_send_email_verification_link, render_template.
  repeat first
    [ progress cbv zeta
    | apply calls_only_bind; [|intros ?]
    | apply calls_only_call; done
    | solve [auto with calls] ].
Qed.

Lemma calls_only_is_valid (P : Event → Prop) form :
  (∀ data, P (CallIsValid (form_class form) data)) →
  calls_only P (is_valid (E:=E) form).
Proof.
  intros HP. unfold is_valid. destruct (form_data form); [|apply calls_only_ret].
  apply calls_only_bind; [by apply calls_only_call|intros ?; apply calls_only_ret].
Qed.

(** The lookup by code reads the table and nothing else. *)
Lemma objects_get_table code w1 w2 :
  verifications w1 = verifications w2 →
  (EmailVerification_objects_get code w1).1 =
  (EmailVerification_objects_get code w2).1.
Proof.
  intros Ht. unfold EmailVerification_objects_get. rewrite Ht.
  by destruct (rows_with_code code (verifications w2)) as [|p [|q l]].
Qed.

(** A code that is found is still found, with the same record, in a table
    that has one row more. *)
Lemma at_most_one_new_lookup code w w' p :
  at_most_one_new (verifications w) (verifications w') →
  (EmailVerification_objects_get code w).1 = inr p →
  (EmailVerification_objects_get code w').1 = inr p.
Proof.
  intros [Hsame|(k & r & Hk & _ & Hfresh & Hnew)] Hget.
  { by rewrite (objects_get_table code w' w). }
  destruct p as [k0 r0].
  apply objects_get_eq in Hget.
  assert (rows_with_code code (verifications w) = [(k0, r0)]) as Hrows.
  { unfold EmailVerification_objects_get in Hget.
    destruct (rows_with_code code (verifications w)) as [|p [|q l]];
      by simplify_eq. }
  apply objects_get_found in Hget as (_ & Hk0 & Hcode).
  assert (k0 ≠ k) as Hne by congruence.
  rewrite (objects_get_unique code w' k0 r0); [done| | |].
  - rewrite Hnew. by rewrite lookup_insert_ne.
  - done.
  - intros k' r' Hk' Hcode'. rewrite Hnew in Hk'.
    destruct (decide (k' = k)) as [->|Hne'].
    + rewrite lookup_insert_eq in Hk'. injection Hk' as <-.
      destruct (Hfresh k0 r0 Hk0). congruence.
    + rewrite lookup_insert_ne in Hk' by done.
      assert ((k', r') ∈ rows_with_code code (verifications w)) as Hin
        by (by apply elem_of_rows_with_code).
      rewrite Hrows in Hin. apply list_elem_of_singleton in Hin. congruence.
Qed.

Lemma link_call_registration recipient ev :
  link_call recipient ev → registration_call ev.
Proof. destruct ev; simpl; try done. by intros [-> _]. Qed.

Lemma link_call_resend recipient ev : link_call recipient ev → resend_call ev.
Proof. destruct ev; simpl; try done. by intros [-> _]. Qed.

Lemma create_account_inserts request :
  inserts_at_most_one (create_account settings request).
Proof.
  unfold create_account.
  apply inserts_bind_r; [|intros []; apply keeps_ret].
  case_decide; [|apply keeps_to_inserts, keeps_ret].
  apply inserts_bind_l; [apply keeps_is_valid|]. intros [valid form].
  cbv zeta. cbn [fst snd].
  destruct valid; [|apply keeps_to_inserts, keeps_ret].
  apply inserts_try_except; [|intros e; auto 10 with frame].
  unfold create_account_body.
  do 6 (apply inserts_bind_l; [auto with frame|intros ?]).
  match goal with |- context [negb ?b] => destruct b end; cbn [negb].
  - apply inserts_bind_r; [apply create_and_send_link_inserts|].
    intros ?. auto 10 with frame.
  - apply keeps_to_inserts, keeps_ret.
Qed.

Lemma at_most_one_new_rows (t t' : VerificationTable) :
  at_most_one_new t t' →
  (∀ k r, t !! k = Some r → t' !! k = Some r) ∧
  size t' ≤ S (size t) ∧
  (∀ k r', t !! k = None → t' !! k = Some r' → verified r' = false).
Proof.
  intros [->|(k & r & Hk & Hr & _ & ->)].
  { split_and!; [done|lia|congruence]. }
  split_and!.
  - intros k0 r0 Hk0. rewrite lookup_insert_ne by congruence. done.
  - rewrite map_size_insert_None by done. lia.
  - intros k0 r0 Hnone Hk0. destruct (decide (k0 = k)) as [->|Hne].
    + rewrite lookup_insert_eq in Hk0. congruence.
    + rewrite lookup_insert_ne in Hk0 by done. congruence.
Qed.

(** X10.  On every path, whatever the collaborators do, [create_account] leaves
    each stored record as it is and adds at most one record, which is not
    verified. *)
Theorem create_account_adds_at_most_one_record request w :
  (∀ k r, verifications w !! k = Some r →
          verifications (create_account settings request w).2 !! k = Some r) ∧
  size (verifications (create_account settings request w).2)
    ≤ S (size (verifications w)) ∧
  (∀ k r', verifications w !! k = None →
           verifications (create_account settings request w).2 !! k = Some r' →
           verified r' = false).
Proof. apply at_most_one_new_rows, create_account_inserts. Qed.

(** X11.  On every path, the calls of [create_account] are the validation of its
    form, [register_user], renderings, and messages to a single recipient:
    it does not enable the account that it registers. *)
Theorem create_account_calls request :
  calls_only registration_call (create_account settings request).
Proof.
  unfold create_account.
  apply calls_only_bind; [|intros []; apply calls_only_ret].
  case_decide; [|apply calls_only_ret].
  apply calls_only_bind; [by apply calls_only_is_valid|]. intros [valid form].
  cbv zeta. cbn [fst snd].
  destruct valid; [|apply calls_only_ret].
  apply calls_only_try_except; [|intros e; auto 10 with calls].
  unfold create_account_body.
  do 5 (apply calls_only_bind; [apply calls_only_lift|intros ?]).
  apply calls_only_bind; [by apply calls_only_call|intros success].
  destruct success; cbn [negb]; [|apply calls_only_ret].
  apply calls_only_bind; [|intros ?; auto 10 with calls].
  eapply calls_only_mono; [apply link_call_registration|].
  apply create_and_send_link_calls.
Qed.

Lemma resend_email_link_inserts request :
  inserts_at_most_one (resend_email_link settings request).
Proof.
  unfold resend_email_link.
  apply inserts_bind_r; [|intros []; apply keeps_ret].
  case_decide; [|apply keeps_to_inserts, keeps_ret].
  apply inserts_bind_l; [apply keeps_is_valid|]. intros [valid form].
  cbv zeta. cbn [fst snd].
  destruct valid; [|apply keeps_to_inserts, keeps_ret].
  apply inserts_try_except; [|intros e; auto 10 with frame].
  unfold resend_email_link_body.
  do 2 (apply inserts_bind_l; [auto with frame|intros ?]).
  apply inserts_bind_r; [|intros ?; apply keeps_ret].
  match goal with |- context [if ?b then _ else _] => destruct b end.
  - do 2 (apply inserts_bind_l; [auto with frame|intros ?]).
    apply inserts_bind_r; [apply create_and_send_link_inserts|].
    intros ?. auto with frame.
  - apply keeps_to_inserts. auto with frame.
Qed.

(** X14.  On every path, the calls of [resend_email_link] are the validation of
    its form, [is_user_exist], [get_user], renderings, and messages to a
    single recipient: it registers and enables nobody, and it does not ask
    whether the account is enabled. *)
Theorem resend_email_link_calls request :
  calls_only resend_call (resend_email_link settings request).
Proof.
  unfold resend_email_link.
  apply calls_only_bind; [|intros []; apply calls_only_ret].
  case_decide; [|apply calls_only_ret].
  apply calls_only_bind; [by apply calls_only_is_valid|]. intros [valid form].
  cbv zeta. cbn [fst snd].
  destruct valid; [|apply calls_only_ret].
  apply calls_only_try_except; [|intros e; auto 10 with calls].
  unfold resend_email_link_body.
  apply calls_only_bind; [apply calls_only_lift|intros u].
  apply calls_only_bind; [by apply calls_only_call|intros exists_].
  apply calls_only_bind; [|intros ?; apply calls_only_ret].
  destruct exists_; [|auto with calls].
  apply calls_only_bind; [by apply calls_only_call|intros user_profile].
  apply calls_only_bind; [apply calls_only_lift|intros email_address].
  apply calls_only_bind; [|intros ?; auto with calls].
  eapply calls_only_mono; [apply link_call_resend|].
  apply create_and_send_link_calls.
Qed.

(** X15.  A link that was valid before a request to [resend_email_link] is valid
    after it, for the same record: resending invalidates nothing. *)
Theorem resend_email_link_keeps_old_links request w code p :
  (EmailVerification_objects_get code w).1 = inr p →
  (EmailVerification_objects_get code
     (resend_email_link settings request w).2).1 = inr p.
Proof.
  apply at_most_one_new_lookup, resend_email_link_inserts.
Qed.

(** *** Resending, path by path *)

(** X16.  The user exists and the steps that follow succeed: [resend_email_link]
    asks the IAM client for the profile, inserts one new record for the
    user, leaves every stored record as it is, sends one message to the
    first address of the profile, reports success and redirects to its own
    page. *)
Theorem resend_email_link_sends_new_link request w cleaned
    e1 e2 e3 e4 e5 e6 e7 u user_profile email_address others
    code template context subject' body' msg :
  method request = "POST" →
  full_clean ResendEmailVerificationLinkForm (POST request) (ext w)
    = (inr (cleaned, []), e1) →
  cleaned !! "username" = Some u →
  is_user_exist u e1 = (inr true, e2) →
  get_user u e2 = (inr user_profile, e3) →
  emails user_profile = email_address :: others →
  uuid4 e3 = (code, e4) →
  (∀ k r, verifications w !! k = Some r → verification_code r ≠ code) →
  templates w !! VERIFY_EMAIL_TEMPLATE = Some template →
  context = dict [
    ("username", u);
    ("email", email_address);
    ("first_name", firstName user_profile);
    ("last_name", lastName user_profile);
    ("portal_title", PORTAL_TITLE settings);
    ("url", build_absolute_uri request
              (Some (reverse "django_airavata_auth:verify_email" [Some code])))
  ] →
  Template_render (subject template) context e4 = (inr subject', e5) →
  Template_render (body template) context e5 = (inr body', e6) →
  msg = mkEmailMessage subject' body'
          (PORTAL_TITLE settings +:+ " <" +:+ SERVER_EMAIL settings +:+ ">")
          [firstName user_profile +:+ " " +:+ lastName user_profile
           +:+ " <" +:+ email_address +:+ ">"] "html" →
  send msg e6 = (inr tt, e7) →
  ∃ w' k,
    resend_email_link settings request w =
      (inr (Redirect (reverse "django_airavata_auth:resend_email_link" [])), w') ∧
    verifications w !! k = None ∧
    verifications w' = <[k := mkEmailVerification u code false]> (verifications w) ∧
    (∀ k0 r0, verifications w !! k0 = Some r0 → verifications w' !! k0 = Some r0) ∧
    trace w' = trace w ++
      [CallIsValid ResendEmailVerificationLinkForm (POST request);
       CallIsUserExist u;
       CallGetUser u;
       CallTemplateRender (subject template) context;
       CallTemplateRender (body template) context;
       CallSend msg] ∧
    messages w' = messages w ++
      [(MSuccess, "Email verification link sent successfully. Please "
                  +:+ "click on the link in the email that we sent "
                  +:+ "to your email address.")].
Proof.
  intros Hpost Hclean Hu Hexist Hprofile Hemails Huuid Hfresh Htpl
    Hctx Hsubject Hbody Hmsg Hsend.
  destruct (create_and_send_link_runs request u email_address
              (firstName user_profile) (lastName user_profile)
              (after_call (CallGetUser u) e3
                 (after_call (CallIsUserExist u) e2
                    (after_call
                       (CallIsValid ResendEmailVerificationLinkForm (POST request))
                       e1 w)))
              code e4 e5 e6 e7 template context subject' body' msg)
    as (w3 & Hlink & Hrows & Htrace & Hmessages & _); try done.
  subst context msg.
  eexists _, (fresh (dom (verifications w))). split_and!.
  - unfold resend_email_link. rewrite decide_True by done.
    erewrite bind_inr; cycle 1.
    rewrite (bind_inr _ _ _ _ _ (is_valid_bound _ _ _ _ _ _ Hclean)).
    cbn [fst snd]. rewrite bool_decide_eq_true_2 by done.
    apply try_except_inr.
    unfold resend_email_link_body. cbn [cleaned_data].
    rewrite (bind_inr _ _ _ _ _ (lift_getitem _ _ _ _ Hu)).
    erewrite bind_inr by (apply call_eq; exact Hexist).
    erewrite bind_inr; [reflexivity|].
    erewrite bind_inr by (apply call_eq; exact Hprofile).
    erewrite bind_inr by (unfold lift; by rewrite Hemails).
    rewrite (bind_inr _ _ _ _ _ Hlink). reflexivity.
    reflexivity.
  - apply not_elem_of_dom, is_fresh.
  - world_simpl. exact Hrows.
  - world_simpl. rewrite Hrows. world_simpl. intros k0 r0 Hk0.
    rewrite lookup_insert_ne; [done|]. intros <-.
    pose proof (is_fresh (dom (verifications w))) as Hnew.
    apply not_elem_of_dom in Hnew. congruence.
  - world_simpl. rewrite Htrace. world_simpl. done.
  - world_simpl. rewrite Hmessages. world_simpl. done.
Qed.

(** X17.  An exception in the body of [resend_email_link] does not leave the
    view: it is logged, and the form is rendered again with [str(e)] as its
    error. *)
Theorem resend_email_link_failure_rendered request w cleaned e1 e w2 :
  method request = "POST" →
  full_clean ResendEmailVerificationLinkForm (POST request) (ext w)
    = (inr (cleaned, []), e1) →
  resend_email_link_body settings request
    (mkForm ResendEmailVerificationLinkForm (Some (POST request)) cleaned [])
    (after_call (CallIsValid ResendEmailVerificationLinkForm (POST request)) e1 w)
    = (inl e, w2) →
  resend_email_link settings request w =
    (inr (Render "django_airavata_auth/verify_email.html"
            [("form",
              VForm (mkForm ResendEmailVerificationLinkForm (Some (POST request))
                       cleaned [(None, exn_str e)]))]),
     add_log LException "Failed to resend email verification link" w2).
Proof.
  intros Hpost Hclean Hbody.
  unfold resend_email_link. rewrite decide_True by done.
  erewrite bind_inr; cycle 1.
  { rewrite (bind_inr _ _ _ _ _ (is_valid_bound _ _ _ _ _ _ Hclean)).
    cbn [fst snd]. rewrite bool_decide_eq_true_2 by done.
    rewrite (try_except_inl _ _ _ _ _ Hbody). reflexivity. }
  reflexivity.
Qed.

(** *** Registration, path by path *)

(** X12.  A form with errors is rendered again with them: [register_user] is not
    called and the table is what it was. *)
Theorem create_account_invalid_form request w cleaned errors e1 :
  method request = "POST" →
  full_clean CreateAccountForm (POST request) (ext w) = (inr (cleaned, errors), e1) →
  errors ≠ [] →
  create_account settings request w =
    (inr (Render "django_airavata_auth/create_account.html"
            [("options", VOptions (AUTHENTICATION_OPTIONS settings));
             ("form",
              VForm (mkForm CreateAccountForm (Some (POST request)) cleaned errors))]),
     after_call (CallIsValid CreateAccountForm (POST request)) e1 w).
Proof.
  intros Hpost Hclean Herrors.
  unfold create_account. rewrite decide_True by done.
  erewrite bind_inr; cycle 1.
  { rewrite (bind_inr _ _ _ _ _ (is_valid_bound _ _ _ _ _ _ Hclean)).
    cbn [fst snd]. rewrite bool_decide_eq_false_2 by done. reflexivity. }
  reflexivity.
Qed.

(** X13.  An exception in the body of [create_account] that has a [message]
    attribute is logged, and the form is rendered again with that message as
    its error. *)
Theorem create_account_failure_with_message request w cleaned e1 e m w2 :
  method request = "POST" →
  full_clean CreateAccountForm (POST request) (ext w) = (inr (cleaned, []), e1) →
  create_account_body settings request
    (mkForm CreateAccountForm (Some (POST request)) cleaned [])
    (after_call (CallIsValid CreateAccountForm (POST request)) e1 w)
    = (inl e, w2) →
  exn_message e = Some m →
  create_account settings request w =
    (inr (Render "django_airavata_auth/create_account.html"
            [("options", VOptions (AUTHENTICATION_OPTIONS settings));
             ("form",
              VForm (mkForm CreateAccountForm (Some (POST request)) cleaned
                       [(None, m)]))]),
     add_log LException "Failed to create account for user" w2).
Proof.
  intros Hpost Hclean Hbody Hm.
  unfold create_account. rewrite decide_True by done.
  erewrite bind_inr; cycle 1.
  { rewrite (bind_inr _ _ _ _ _ (is_valid_bound _ _ _ _ _ _ Hclean)).
    cbn [fst snd]. rewrite bool_decide_eq_true_2 by done.
    rewrite (try_except_inl _ _ _ _ _ Hbody).
    unfold getattr_message. rewrite Hm. reflexivity. }
  reflexivity.
Qed.

(** *** From the link to its verification *)

(** X18.  The link that [_create_and_send_email_verification_link] sends is one
    that [verify_email] accepts: the URL in the context of the message is
    the verification route of a code under which the new record, and no
    other, is found; a visit of that code marks this record verified. *)
Theorem sent_link_is_accepted request request' u email first last w w' :
  _create_and_send_email_verification_link settings request u email first last w
    = (inr tt, w') →
  ∃ k code source context,
    CallTemplateRender source context ∈ trace w' ∧
    context !! "url" =
      Some (build_absolute_uri request
              (Some (reverse "django_airavata_auth:verify_email" [Some code]))) ∧
    (EmailVerification_objects_get code w').1 =
      inr (k, mkEmailVerification u code false) ∧
    verifications (verify_email settings request' code w').2 !! k =
      Some (mkEmailVerification u code true).
Proof.
  intros Hrun.
  destruct (create_and_send_link_returns _ _ _ _ _ _ _ Hrun)
    as (k & code & template & subject' & body' & Hfacts).
  cbn zeta in Hfacts.
  destruct Hfacts as (_ & Hk & Hfresh & Hrows & _ & Htrace & _).
  assert ((EmailVerification_objects_get code w').1 =
            inr (k, mkEmailVerification u code false)) as Hget.
  { rewrite (objects_get_unique code w' k (mkEmailVerification u code false));
      [done| | |].
    - rewrite Hrows. apply lookup_insert_eq.
    - done.
    - intros k' r' Hk' Hcode. rewrite Hrows in Hk'.
      destruct (decide (k' = k)) as [|Hne]; [done|].
      rewrite lookup_insert_ne in Hk' by done. by destruct (Hfresh k' r'). }
  eexists k, code, _, _. split_and!.
  - rewrite Htrace. apply elem_of_app. right. apply list_elem_of_here.
  - reflexivity.
  - exact Hget.
  - rewrite (verify_email_found_marks_verified request' code w' k _ Hget).
    apply lookup_insert_eq.
Qed.

(** *** Login with a password *)

Context `{!LoginCollaborators E}.

(** X19.  A login request without a username or without a password raises
    [KeyError] before anything is done: [authenticate] is not called. *)
Theorem handle_login_missing_credentials request w :
  POST request !! "username" = None ∨ POST request !! "password" = None →
  ∃ e,
    handle_login settings request w = (inl e, w) ∧
    exn_class e = KeyError.
Proof.
  intros Hmissing. unfold handle_login, bind, lift, getitem.
  destruct (POST request !! "username") as [u|]; [|eauto].
  destruct (POST request !! "password") as [p|]; [|eauto].
  by destruct Hmissing.
Qed.

(** X20.  Once [authenticate] has returned, [handle_login] answers and does not
    raise.  Without a user it does not call [login]: it gives the message
    that the login failed and renders the login form, with the username, the
    [next] and the login type of the request and the configured options, and
    without the password.  With a user it calls [login]; if that returns and
    [redirect] accepts the [next] of the request, or the configured landing
    URL without it, the view redirects there; if either raises, the form is
    rendered with the exception in the message. *)
Theorem handle_login_answers request w username password user e1 :
  POST request !! "username" = Some username →
  POST request !! "password" = Some password →
  authenticate_credentials username password request (session w) (ext w)
    = (inr user, e1) →
  ∃ w',
    match user with
    | None =>
        handle_login settings request w =
          (inr (Render (login_template (POST request !! "login_type"))
                  [("username", VStr username);
                   ("next", get_or_none (POST request) "next");
                   ("options", VOptions (AUTHENTICATION_OPTIONS settings));
                   ("login_type", get_or_none (POST request) "login_type")]),
           w') ∧
        messages w' = messages w ++ [(MError, "Login failed. Please try again.")] ∧
        trace w' = trace w ++ [CallAuthenticate] ∧
        session w' = session w
    | Some u =>
        match (login (Some u) (session w) e1).1.1,
              resolve_url (default (LOGIN_REDIRECT_URL settings)
                             (POST request !! "next")) with
        | inr _, inr url =>
            handle_login settings request w = (inr (Redirect url), w') ∧
            messages w' = messages w ∧
            trace w' = trace w ++ [CallAuthenticate; CallLogin (Some u)]
        | inl err, _ | inr _, inl err =>
            handle_login settings request w =
              (inr (Render (login_template (POST request !! "login_type"))
                      [("username", VStr username);
                       ("next", get_or_none (POST request) "next");
                       ("options", VOptions (AUTHENTICATION_OPTIONS settings));
                       ("login_type", get_or_none (POST request) "login_type")]),
               w') ∧
            messages w' = messages w ++
              [(MError, "Login failed: " +:+ exn_str err +:+ ". Please try again.")] ∧
            trace w' = trace w ++ [CallAuthenticate; CallLogin (Some u)]
        end
    end.
Proof.
  intros Hu Hp Hauth.
  unfold handle_login.
  rewrite (bind_inr _ _ _ _ _ (lift_getitem _ _ _ _ Hu)).
  rewrite (bind_inr _ _ _ _ _ (lift_getitem _ _ _ _ Hp)). cbv zeta.
  erewrite bind_inr
    by (unfold do_authenticate_credentials; apply call_eq; exact Hauth).
  erewrite bind_inr by reflexivity.
  destruct user as [u|].
  - unfold handle_login_body, try_except, bind, do_login, lift. world_simpl.
    destruct (login (Some u) (session w) e1) as [[[err|[]] s] e2]; cbn [fst].
    + eexists; split_and!; try reflexivity; world_simpl; done.
    + destruct (resolve_url _) as [err|url];
        eexists; split_and!; try reflexivity; world_simpl; done.
  - eexists; split_and!; try reflexivity; world_simpl; done.
Qed.

End Properties.

(** ** The views at work

    Each statement above that has premises is applied here to the concrete
    collaborators of [Demo], and the two defects are run. *)

Lemma verify_email_unknown_code_witness :
  ∃ w',
    verify_email Demo.settings (Demo.get_request ∅) "bogus" Demo.pending_world
      = (inr (Redirect "/django_airavata_auth:resend_email_link/"), w') ∧
    verifications w' = verifications Demo.pending_world ∧
    trace w' = [].
Proof.
  destruct (verify_email_unknown_code Demo.settings (Demo.get_request ∅)
              "bogus" Demo.pending_world)
    as (e & w' & _ & _ & Hrun & Htable & Htrace & _).
  - apply rows_with_code_nil. reflexivity.
  - exists w'. split_and!; done.
Defined.

Lemma verify_email_already_enabled_witness :
  ∃ w',
    verify_email Demo.settings (Demo.get_request ∅) "c0de-1" Demo.enabled_world
      = (inr (Redirect "/django_airavata_auth:login/"), w') ∧
    trace w' = [CallIsUserEnabled "alice"].
Proof.
  edestruct (verify_email_already_enabled Demo.settings (Demo.get_request ∅)
               "c0de-1" Demo.enabled_world)
    as (w' & Hrun & Htrace & _); [reflexivity..|].
  exists w'. split; [exact Hrun|exact Htrace].
Defined.

Lemma verify_email_enables_and_notifies_witness :
  ∃ w',
    verify_email Demo.settings (Demo.get_request ∅) "c0de-1" Demo.pending_world
      = (inr (Redirect "/django_airavata_auth:login/"), w') ∧
    verifications w' = {[ 1 := mkEmailVerification "alice" "c0de-1" true ]} ∧
    length (trace w') = 6.
Proof.
  edestruct (verify_email_enables_and_notifies Demo.settings (Demo.get_request ∅)
               "c0de-1" Demo.pending_world)
    as (w' & Hrun & Htable & _ & Htrace & _); [reflexivity..|].
  exists w'. split_and!; [exact Hrun|by rewrite Htable|by rewrite Htrace].
Defined.

Lemma redirect_login_unknown_alias_witness :
  ∃ e,
    redirect_login Demo.settings (Demo.get_request ∅) "evil" Demo.empty_world
      = (inl e, Demo.empty_world).
Proof.
  destruct (redirect_login_unknown_alias Demo.settings (Demo.get_request ∅)
              "evil" Demo.empty_world)
    as (e & w' & Hrun & -> & _).
  - intros exts ext [= <-] Hin.
    repeat (apply elem_of_cons in Hin as [->|Hin]; [by vm_compute|]).
    by apply not_elem_of_nil in Hin.
  - by exists e.
Defined.

(** With an alias of the configuration the redirect is produced and the
    state is stored. *)
Example redirect_login_known_alias :
  let run :=
    redirect_login Demo.settings (Demo.get_request ∅) "github" Demo.empty_world in
  run.1 =
    inr (Redirect
           ("https://iam.example.org/auth?client_id=portal&redirect_uri="
            +:+ "https://gateway.example.org/django_airavata_auth:callback/"
            +:+ "?idp_alias=github&kc_idp_hint=github")) ∧
  session run.2 !! "OAUTH2_STATE" = Some "state-1" ∧
  trace run.2 =
    [CallAuthorizationUrl "portal" "openid"
       ("https://gateway.example.org/django_airavata_auth:callback/"
        +:+ "?idp_alias=github")
       "https://iam.example.org/auth"].
Proof. cbv zeta. split_and!; reflexivity. Qed.

Lemma callback_failure_error_page_witness :
  ∃ w2,
    callback Demo.settings (Demo.get_request {[ "idp_alias" := "github" ]})
      Demo.empty_world
      = (inr (Redirect "/django_airavata_auth:callback-error/github"), w2) ∧
    ∀ w' : World Demo.Ext,
      callback_error Demo.settings (Demo.get_request ∅) "github" w' =
        (inr (Render "django_airavata_auth/callback-error.html"
                [("idp_alias", VStr "github");
                 ("options",
                  VOptions (mkAuthenticationOptions None
                    (Some [{[ "idp_alias" := "github"; "name" := "GitHub" ]}])))]),
         w').
Proof.
  edestruct (callback_failure_error_page Demo.settings
               (Demo.get_request {[ "idp_alias" := "github" ]}) "github"
               Demo.empty_world)
    as (w2 & exts & shown & Hrun & Hexts & -> & Hpage & _); [reflexivity..|].
  injection Hexts as <-.
  exists w2. split; [exact Hrun|]. intros w'. apply (Hpage (Demo.get_request ∅) w').
Defined.

(** C5, as worded.  Alice registers, the IAM client reports success and the
    view reports success, and the template is rendered with a context whose
    keys are not those of the specification: the verification URL is under
    the key url, and there is no key verification_url. *)
Lemma create_account_context_lacks_verification_url :
  let run :=
    create_account Demo.settings (Demo.post_request Demo.registration)
      Demo.empty_world in
  run.1 = inr (Redirect "/django_airavata_auth:create_account/") ∧
  CallRegisterUser "alice" "a@x.com" "Alice" "A" "pw" ∈ trace run.2 ∧
  ∃ source context,
    CallTemplateRender source context ∈ trace run.2 ∧
    dom context ≠ claimed_verify_email_keys ∧
    context !! "verification_url" = None ∧
    context !! "url" =
      Some "https://gateway.example.org/django_airavata_auth:verify_email/c0de-1".
Proof.
  cbv zeta. split_and!.
  - reflexivity.
  - apply list_elem_of_lookup. exists 1. reflexivity.
  - eexists _, _. split_and!.
    + apply list_elem_of_lookup. exists 2. reflexivity.
    + intros Hdom.
      apply (f_equal (λ keys : gset string, bool_decide ("url" ∈ keys))) in Hdom.
      vm_compute in Hdom. discriminate.
    + reflexivity.
    + reflexivity.
Qed.

Lemma create_account_sends_verification_link_witness :
  ∃ w' k,
    create_account Demo.settings (Demo.post_request Demo.registration)
      Demo.empty_world
      = (inr (Redirect "/django_airavata_auth:create_account/"), w') ∧
    verifications w' = {[ k := mkEmailVerification "alice" "c0de-1" false ]} ∧
    length (trace w') = 5.
Proof.
  edestruct (create_account_sends_verification_link Demo.settings
               (Demo.post_request Demo.registration) Demo.empty_world)
    as (w' & k & Hrun & Hk & Htable & _ & _ & Htrace & _);
    [first [reflexivity | by apply rows_with_code_nil]..|].
  exists w', k. split_and!; [exact Hrun|exact Htable|by rewrite Htrace].
Defined.

Lemma create_account_registration_refused_witness :
  ∃ w' form,
    create_account Demo.settings (Demo.post_request Demo.registration)
      Demo.pending_world
      = (inr (Render "django_airavata_auth/create_account.html"
                [("options", VOptions (AUTHENTICATION_OPTIONS Demo.settings));
                 ("form", VForm form)]), w') ∧
    form_errors form = [(None, "Failed to register user with IAM service")] ∧
    verifications w' = verifications Demo.pending_world.
Proof.
  edestruct (create_account_registration_refused Demo.settings
               (Demo.post_request Demo.registration) Demo.pending_world)
    as (w' & form & Hrun & Herrors & Htable & _); [reflexivity..|].
  exists w', form. split_and!; [exact Hrun|exact Herrors|exact Htable].
Defined.

Lemma create_account_failure_escapes_witness :
  ∃ e' w',
    create_account Demo.settings (Demo.post_request Demo.registration)
      Demo.empty_world_no_templates = (inl e', w') ∧
    exn_class e' = AttributeError.
Proof.
  edestruct (create_account_failure_escapes Demo.settings
               (Demo.post_request Demo.registration)
               Demo.empty_world_no_templates)
    as (e' & Hrun & Hclass); [first [reflexivity | vm_compute; reflexivity]..|].
  eexists e', _. split; [exact Hrun|exact Hclass].
Defined.

Lemma resend_email_link_unknown_user_witness :
  ∃ w',
    resend_email_link Demo.settings (Demo.post_request {[ "username" := "bob" ]})
      Demo.pending_world
      = (inr (Redirect "/django_airavata_auth:resend_email_link/"), w') ∧
    verifications w' = verifications Demo.pending_world ∧
    length (trace w') = 2.
Proof.
  edestruct (resend_email_link_unknown_user Demo.settings
               (Demo.post_request {[ "username" := "bob" ]}) Demo.pending_world)
    as (w' & Hrun & _ & Htable & Htrace & _); [reflexivity..|].
  exists w'. split_and!; [exact Hrun|exact Htable|by rewrite Htrace].
Defined.

Lemma verify_email_missing_template_witness :
  ∃ w',
    verify_email Demo.settings (Demo.get_request ∅) "c0de-1"
      Demo.pending_world_no_templates
      = (inr (Redirect "/django_airavata_auth:resend_email_link/"), w') ∧
    messages w' =
      [(MError, "Email verification failed. Please enter your username and we "
                +:+ "will send you another email verification link.")] ∧
    Demo.enabled <$> Demo.users (ext w') !! "alice" = Some true.
Proof.
  edestruct (verify_email_missing_template Demo.settings (Demo.get_request ∅)
               "c0de-1" Demo.pending_world_no_templates)
    as (w' & Hrun & Hmessages & _ & _ & _ & Hext); [reflexivity..|].
  exists w'. split_and!; [exact Hrun|exact Hmessages|by rewrite Hext].
Defined.

(** ** The URL configuration of the groups application *)

(** X21.  No path is matched by two patterns of the groups application: the
    resolver gives the same view whatever the order of the patterns. *)
Theorem groups_at_most_one_pattern_matches path p q :
  p ∈ GroupsUrls.urlpatterns →
  q ∈ GroupsUrls.urlpatterns →
  GroupsUrls.regex_search (GroupsUrls.regex p) path = Some true →
  GroupsUrls.regex_search (GroupsUrls.regex q) path = Some true →
  p = q.
Proof.
  intros Hp Hq Hmp Hmq. unfold GroupsUrls.urlpatterns in *.
  repeat (apply elem_of_cons in Hp as [->|Hp]);
    try (by apply not_elem_of_nil in Hp);
    repeat (apply elem_of_cons in Hq as [->|Hq]);
    try (by apply not_elem_of_nil in Hq);
    try reflexivity; exfalso;
    cbn in Hmp, Hmq;
    destruct path as [|d path]; try discriminate;
    injection Hmp as Hmp; injection Hmq as Hmq;
    repeat match goal with
    | H : bool_decide _ = true |- _ => apply bool_decide_eq_true_1 in H
    | H : _ && _ = true |- _ => apply andb_true_iff in H as [? ?]
    | H : _ ∨ _ |- _ => destruct H
    end;
    simplify_eq.
Qed.

(** X22.  The patterns other than the first are not closed by a [$]: whatever
    follows the prefix, the path resolves to the view of the prefix. *)
Theorem groups_resolve_ignores_rest rest :
  GroupsUrls.resolve GroupsUrls.urlpatterns ("create/" +:+ rest)
    = Some (Some (GroupsUrls.url "^create/" "groups_create" "create")) ∧
  GroupsUrls.resolve GroupsUrls.urlpatterns ("view/" +:+ rest)
    = Some (Some (GroupsUrls.url "^view/" "view_group" "view")) ∧
  GroupsUrls.resolve GroupsUrls.urlpatterns ("add/" +:+ rest)
    = Some (Some (GroupsUrls.url "^add/" "add_members" "add")) ∧
  GroupsUrls.resolve GroupsUrls.urlpatterns ("remove/" +:+ rest)
    = Some (Some (GroupsUrls.url "^remove/" "remove_members" "remove")) ∧
  GroupsUrls.resolve GroupsUrls.urlpatterns ("delete/" +:+ rest)
    = Some (Some (GroupsUrls.url "^delete/" "delete_group" "delete")) ∧
  GroupsUrls.resolve GroupsUrls.urlpatterns ("leave/" +:+ rest)
    = Some (Some (GroupsUrls.url "^leave/" "leave_group" "leave")).
Proof. split_and!; reflexivity. Qed.

Lemma groups_at_most_one_pattern_matches_witness :
  GroupsUrls.url "^create/" "groups_create" "create"
  = GroupsUrls.url "^create/" "groups_create" "create".
Proof.
  apply (groups_at_most_one_pattern_matches "create/new").
  - apply list_elem_of_further, list_elem_of_here.
  - apply list_elem_of_further, list_elem_of_here.
  - reflexivity.
  - reflexivity.
Defined.

(** ** More of the views at work *)

Lemma verify_email_retry_finds_record_witness :
  (EmailVerification_objects_get "c0de-1"
     (verify_email Demo.settings (Demo.get_request ∅) "c0de-1"
        Demo.pending_world).2).1
  = inr (1, mkEmailVerification "alice" "c0de-1" true).
Proof.
  apply (verify_email_retry_finds_record Demo.settings (Demo.get_request ∅)
           "c0de-1" Demo.pending_world 1
           (mkEmailVerification "alice" "c0de-1" false)).
  reflexivity.
Defined.

Lemma redirect_login_malformed_options_witness :
  ∃ e,
    redirect_login DemoOutage.malformed_settings (Demo.get_request ∅) "cilogon"
      DemoOutage.world = (inl e, DemoOutage.world) ∧
    exn_class e = KeyError.
Proof.
  apply (redirect_login_malformed_options DemoOutage.malformed_settings).
  simpl. eexists. split; [apply list_elem_of_further, list_elem_of_here|].
  reflexivity.
Defined.

Lemma redirect_login_stores_state_witness :
  ∃ w',
    redirect_login Demo.settings (Demo.get_request {[ "next" := "/projects/" ]})
      "github" Demo.empty_world
    = (inr (Redirect
              ("https://iam.example.org/auth?client_id=portal&redirect_uri="
               +:+ "https://gateway.example.org/django_airavata_auth:callback/"
               +:+ "?idp_alias=github&next=/projects/&kc_idp_hint=github")), w') ∧
    session w' !! "OAUTH2_REDIRECT_URI" =
      Some ("https://gateway.example.org/django_airavata_auth:callback/"
            +:+ "?idp_alias=github&next=/projects/").
Proof.
  pose proof (redirect_login_stores_state Demo.settings
                (Demo.get_request {[ "next" := "/projects/" ]}) "github"
                Demo.empty_world _ eq_refl eq_refl) as H.
  simpl in H. destruct H as (w' & Hrun & Hsession & _).
  exists w'. split; [exact Hrun|]. rewrite Hsession. reflexivity.
Defined.

Lemma callback_error_unknown_alias_witness :
  ∃ e,
    callback_error Demo.settings (Demo.get_request ∅) "evil" Demo.empty_world
      = (inl e, Demo.empty_world).
Proof.
  apply (callback_error_unknown_alias Demo.settings).
  intros exts ext [= <-] Hin.
  repeat (apply elem_of_cons in Hin as [->|Hin]; [by vm_compute|]).
  by apply not_elem_of_nil in Hin.
Defined.

Lemma callback_error_shows_configured_entries_witness :
  ∃ shown,
    (callback_error Demo.settings (Demo.get_request ∅) "github"
       Demo.empty_world).1
    = inr (Render "django_airavata_auth/callback-error.html"
             [("idp_alias", VStr "github");
              ("options", VOptions (mkAuthenticationOptions None (Some shown)))]) ∧
    shown ≠ [].
Proof.
  edestruct (callback_error_shows_configured_entries Demo.settings
               (Demo.get_request ∅) "github" Demo.empty_world)
    as (_ & shown & Hresponse & Hshown & _); [vm_compute; reflexivity|].
  exists shown. split; [|exact Hshown].
  rewrite <- Hresponse. reflexivity.
Defined.

Lemma resend_email_link_keeps_old_links_witness :
  (EmailVerification_objects_get "c0de-1"
     (resend_email_link Demo.settings
        (Demo.post_request {[ "username" := "alice" ]}) Demo.pending_world).2).1
  = inr (1, mkEmailVerification "alice" "c0de-1" false).
Proof.
  apply (resend_email_link_keeps_old_links Demo.settings). reflexivity.
Defined.

Lemma resend_email_link_sends_new_link_witness :
  ∃ w' k,
    resend_email_link Demo.settings
      (Demo.post_request {[ "username" := "alice" ]}) Demo.pending_world
    = (inr (Redirect "/django_airavata_auth:resend_email_link/"), w') ∧
    verifications w' =
      <[k := mkEmailVerification "alice" "c0de-2" false]>
        (verifications Demo.pending_world) ∧
    length (trace w') = 6.
Proof.
  edestruct (resend_email_link_sends_new_link Demo.settings
               (Demo.post_request {[ "username" := "alice" ]})
               Demo.pending_world)
    as (w' & k & Hrun & _ & Htable & _ & Htrace & _);
    [first [reflexivity | by apply rows_with_code_nil]..|].
  exists w', k. split_and!; [exact Hrun|exact Htable|by rewrite Htrace].
Defined.

Lemma resend_email_link_failure_rendered_witness :
  ∃ form w',
    resend_email_link Demo.settings
      (Demo.post_request {[ "username" := "alice" ]})
      Demo.pending_world_no_templates
    = (inr (Render "django_airavata_auth/verify_email.html"
              [("form", VForm form)]), w') ∧
    form_errors form = [(None, "EmailTemplate matching query does not exist.")].
Proof.
  pose proof (resend_email_link_failure_rendered Demo.settings
                (Demo.post_request {[ "username" := "alice" ]})
                Demo.pending_world_no_templates) as H.
  edestruct (resend_email_link_body Demo.settings
               (Demo.post_request {[ "username" := "alice" ]})
               (mkForm ResendEmailVerificationLinkForm
                  (Some {[ "username" := "alice" ]}) {[ "username" := "alice" ]} [])
               (after_call
                  (CallIsValid ResendEmailVerificationLinkForm
                     {[ "username" := "alice" ]})
                  (ext Demo.pending_world_no_templates)
                  Demo.pending_world_no_templates))
    as [r w2] eqn:Hbody.
  assert (r = inl (mkExn (DoesNotExist "EmailTemplate")
                     "EmailTemplate matching query does not exist." None)) as ->
    by (apply (f_equal fst) in Hbody; vm_compute in Hbody; congruence).
  specialize (H _ _ _ _ eq_refl eq_refl Hbody).
  eexists _, _. split; [exact H|reflexivity].
Defined.

Lemma create_account_invalid_form_witness :
  ∃ form,
    create_account Demo.settings (Demo.post_request ∅) DemoOutage.world
    = (inr (Render "django_airavata_auth/create_account.html"
              [("options", VOptions (AUTHENTICATION_OPTIONS Demo.settings));
               ("form", VForm form)]),
       after_call (CallIsValid CreateAccountForm ∅) tt DemoOutage.world) ∧
    form_errors form = [(Some "username", "This field is required.")].
Proof.
  eexists. split.
  - eapply (create_account_invalid_form Demo.settings (Demo.post_request ∅)
             DemoOutage.world); [reflexivity|reflexivity|done].
  - reflexivity.
Defined.

Lemma create_account_failure_with_message_witness :
  ∃ form w',
    create_account Demo.settings (Demo.post_request Demo.registration)
      DemoOutage.world
    = (inr (Render "django_airavata_auth/create_account.html"
              [("options", VOptions (AUTHENTICATION_OPTIONS Demo.settings));
               ("form", VForm form)]), w') ∧
    form_errors form = [(None, "IAM service unavailable")].
Proof.
  eexists _, _. split.
  - eapply (create_account_failure_with_message Demo.settings
             (Demo.post_request Demo.registration) DemoOutage.world);
      first [reflexivity | vm_compute; reflexivity].
  - reflexivity.
Defined.

Lemma sent_link_is_accepted_witness :
  ∃ w' k code,
    _create_and_send_email_verification_link Demo.settings
      (Demo.post_request Demo.registration) "alice" "a@x.com" "Alice" "A"
      Demo.empty_world = (inr tt, w') ∧
    verifications
      (verify_email Demo.settings (Demo.get_request ∅) code w').2 !! k
    = Some (mkEmailVerification "alice" code true).
Proof.
  destruct (_create_and_send_email_verification_link Demo.settings
              (Demo.post_request Demo.registration) "alice" "a@x.com" "Alice" "A"
              Demo.empty_world) as [r w'] eqn:Hrun.
  assert (r = inr tt) as ->
    by (apply (f_equal fst) in Hrun; vm_compute in Hrun; congruence).
  destruct (sent_link_is_accepted Demo.settings
              (Demo.post_request Demo.registration) (Demo.get_request ∅)
              "alice" "a@x.com" "Alice" "A" Demo.empty_world w' Hrun)
    as (k & code & source & context & _ & _ & _ & Hvisit).
  exists w', k, code. split; [reflexivity|exact Hvisit].
Defined.

Lemma handle_login_missing_credentials_witness :
  ∃ e,
    handle_login Demo.settings (Demo.post_request {[ "username" := "alice" ]})
      Demo.pending_world = (inl e, Demo.pending_world) ∧
    exn_class e = KeyError.
Proof.
  apply (handle_login_missing_credentials Demo.settings). right. reflexivity.
Defined.

Lemma handle_login_answers_witness :
  (∃ w',
     handle_login Demo.settings
       (Demo.post_request {[ "username" := "alice"; "password" := "pw" ]})
       Demo.pending_world = (inr (Redirect "/workspace/"), w')) ∧
  (∃ w',
     handle_login Demo.settings
       (Demo.post_request {[ "username" := "alice"; "password" := "guess" ]})
       Demo.pending_world
     = (inr (Render "django_airavata_auth/login.html"
               [("username", VStr "alice"); ("next", VNone);
                ("options", VOptions (AUTHENTICATION_OPTIONS Demo.settings));
                ("login_type", VNone)]), w') ∧
     messages w' = [(MError, "Login failed. Please try again.")]).
Proof.
  split.
  - pose proof (handle_login_answers Demo.settings
                  (Demo.post_request {[ "username" := "alice"; "password" := "pw" ]})
                  Demo.pending_world "alice" "pw" _ _
                  eq_refl eq_refl eq_refl) as (w' & H).
    simpl in H. destruct H as (Hrun & _).
    exists w'. exact Hrun.
  - pose proof (handle_login_answers Demo.settings
                  (Demo.post_request {[ "username" := "alice"; "password" := "guess" ]})
                  Demo.pending_world "alice" "guess" _ _
                  eq_refl eq_refl eq_refl) as (w' & H).
    simpl in H. destruct H as (Hrun & Hmessages & _).
    exists w'. split; [exact Hrun|exact Hmessages].
Defined.
